(** * lzu_oslab, lab6: the system-call layer ([kernel/syscall.c])

    A shallow embedding of the system-call handlers of the teaching kernel
    and of the user-side [syscall(number, ...)] wrapper, together with the
    properties the specification states about them.

    Conventions of the embedding:
    - a 64-bit machine integer is a [Z]; conversions between [uint64_t] and
      [int64_t] are written out ([to_uint64], [to_int64]);
    - a pointer is an address of type [Z]; [NULL] is address 0;
    - kernel code runs in the monad [kern]: explicit passing of the kernel
      state, plus a [Fault] outcome for the executions C leaves undefined
      (an access outside an array, a dereference of a pointer that does not
      designate an object);
    - what [syscall.c] uses but does not define (the errno constants,
      [NR_TASKS], [START_STACK], [stack_size], the VFS entry points, the
      environment call) is a parameter of the development, given through
      the classes [KConsts], [Vfs] and [Trap]. *)

From stdpp Require Import base option list gmap strings.
From Stdlib Require Import ZArith Lia.

Local Open Scope Z_scope.

(** ** Machine integers *)

Module Int64.

Definition modulus : Z := 2 ^ 64.
Definition half_modulus : Z := 2 ^ 63.
Definition min_signed : Z := - 2 ^ 63.
Definition max_signed : Z := 2 ^ 63 - 1.

(** Conversion to [uint64_t]: reduction modulo [2^64]. *)
Definition to_uint64 (z : Z) : Z := z mod modulus.

(** Conversion to [int64_t]: the representative in [[-2^63, 2^63)]. *)
Definition to_int64 (z : Z) : Z := (z + half_modulus) mod modulus - half_modulus.

(** Unary minus on an [int64_t], as the RV64 [neg] instruction computes it. *)
Definition neg (z : Z) : Z := to_int64 (- z).

Definition is_uint64 (z : Z) : Prop := 0 <= z < modulus.
Definition is_int64 (z : Z) : Prop := min_signed <= z <= max_signed.

End Int64.

Export Int64.

(** ** Constants and collaborators that [syscall.c] takes from its headers *)

(** [errno.h], [sched.h] and [mm.h] are not part of the sources at hand;
    their constants are parameters. *)
Class KConsts := {
  NR_TASKS : Z;
  EAGAIN : Z;
  EINVAL : Z;
  START_STACK : Z;
  stack_size : Z
}.

Definition NULL : Z := 0.

(** The VFS entry points called by the handlers ([fs/vfs.h]).  The VFS keeps
    a state of its own (inode cache, reference counts), threaded through the
    calls; [vfs_get_stat] yields the [struct vfs_stat] its result points to. *)
Class Vfs := {
  vfs_state : Type;
  vfs_stat : Type;
  vfs_get_inode : Z -> Z -> vfs_state -> Z * vfs_state;
  vfs_ref_inode : Z -> vfs_state -> vfs_state;
  vfs_free_inode : Z -> vfs_state -> vfs_state;
  vfs_get_stat : Z -> vfs_state -> vfs_stat
}.

(** The environment call issued by the user-side wrapper: the trap into the
    kernel, seen from user space.  It receives the argument registers
    [a0]..[a5] and the call number in [a7], acts on the rest of the machine
    and leaves its result in [a0]. *)
Class Trap := {
  machine : Type;
  ecall : Z -> Z -> Z -> Z -> Z -> Z -> Z -> machine -> Z * machine
}.

(** ** Trap frame *)

Record gprs := {
  a0 : Z; a1 : Z; a2 : Z; a3 : Z; a4 : Z; a5 : Z; a6 : Z; a7 : Z
}.

Record trapframe := { gpr : gprs; epc : Z }.

Definition set_a0 (v : Z) (tf : trapframe) : trapframe :=
  {| gpr := {| a0 := v; a1 := a1 (gpr tf); a2 := a2 (gpr tf); a3 := a3 (gpr tf);
               a4 := a4 (gpr tf); a5 := a5 (gpr tf); a6 := a6 (gpr tf);
               a7 := a7 (gpr tf) |};
     epc := epc tf |}.

(** First and second argument registers, as the [uint64_t] the handlers
    read them into. *)
Definition arg0 (tf : trapframe) : Z := to_uint64 (a0 (gpr tf)).
Definition arg1 (tf : trapframe) : Z := to_uint64 (a1 (gpr tf)).

(** ** Process control block *)

Inductive task_state := Unused | Ready | Running | Blocked | Zombie.

(** Modelled from the spec: [struct task_struct] is declared in [sched.h],
    which is not among the sources.  [pid], [p_pptr], [end_data], [brk] and
    [fd] are the members [syscall.c] accesses, with the types it uses them
    at; [state] and [context] (the saved trap frame) are the members the
    specification lists besides them.  A pid is a small integer that
    converts to [int64_t] unchanged. *)
Record task_struct := {
  pid : Z;
  p_pptr : Z;
  end_data : Z;
  brk : Z;
  fd : list Z;
  state : task_state;
  context : trapframe
}.

Definition set_brk (v : Z) (t : task_struct) : task_struct :=
  {| pid := pid t; p_pptr := p_pptr t; end_data := end_data t; brk := v;
     fd := fd t; state := state t; context := context t |}.

Definition set_fd (l : list Z) (t : task_struct) : task_struct :=
  {| pid := pid t; p_pptr := p_pptr t; end_data := end_data t; brk := brk t;
     fd := l; state := state t; context := context t |}.

(** Modelled from the spec: the length of the [fd] array is part of the
    missing declaration of [struct task_struct]; the specification gives
    every PCB a descriptor table of exactly 4 slots, the ones [sys_open]
    scans. *)
Definition NR_FD : nat := 4.

(** ** Kernel state and the monad of kernel code *)

Section Kernel.
Context `{KC : KConsts} `{VFS : Vfs}.

(** [mem] is the kernel heap holding the PCBs, [tasks] the process table
    (an array of PCB pointers), [current] the running process, [vfs] the
    state of the VFS and [ubuf] the user memory into which [sys_stat]
    copies. *)
Record kernel := {
  mem : gmap Z task_struct;
  tasks : list Z;
  current : Z;
  vfs : vfs_state;
  ubuf : gmap Z vfs_stat
}.

Definition set_mem (m : gmap Z task_struct) (k : kernel) : kernel :=
  {| mem := m; tasks := tasks k; current := current k; vfs := vfs k; ubuf := ubuf k |}.

Definition set_tasks (l : list Z) (k : kernel) : kernel :=
  {| mem := mem k; tasks := l; current := current k; vfs := vfs k; ubuf := ubuf k |}.

Definition set_vfs (v : vfs_state) (k : kernel) : kernel :=
  {| mem := mem k; tasks := tasks k; current := current k; vfs := v; ubuf := ubuf k |}.

Definition set_ubuf (u : gmap Z vfs_stat) (k : kernel) : kernel :=
  {| mem := mem k; tasks := tasks k; current := current k; vfs := vfs k; ubuf := u |}.

Inductive fault :=
| OutOfBounds (i : Z)    (* array access at an index outside the array *)
| BadPointer (p : Z)     (* dereference of a pointer to no object *)
| OutOfFuel.             (* loop bound of the embedding exhausted *)

Inductive result (A : Type) :=
| Ok (a : A) (k : kernel)
| Fault (f : fault).
#[global] Arguments Ok {A} a k.
#[global] Arguments Fault {A} f.

Definition kern (A : Type) : Type := kernel -> result A.

#[global] Instance kern_ret : MRet kern := fun A a k => Ok a k.

#[global] Instance kern_bind : MBind kern := fun A B f m k =>
  match m k with
  | Ok a k' => f a k'
  | Fault e => Fault e
  end.

Definition raise {A} (e : fault) : kern A := fun _ => Fault e.
Definition get : kern kernel := fun k => Ok k k.
Definition modify (f : kernel -> kernel) : kern unit := fun k => Ok tt (f k).

(** [*p] for a PCB pointer [p]. *)
Definition deref (p : Z) : kern task_struct := fun k =>
  match mem k !! p with
  | Some t => Ok t k
  | None => Fault (BadPointer p)
  end.

(** [*current]. *)
Definition get_current : kern task_struct :=
  k ← get; deref (current k).

(** [*current = t]. *)
Definition put_current (t : task_struct) : kern unit :=
  k ← get; _ ← deref (current k); modify (set_mem (<[current k := t]> (mem k))).

(** [current->fd[i]], read. *)
Definition fd_load (i : Z) : kern Z :=
  cur ← get_current;
  match fd cur !! Z.to_nat i with
  | Some p => mret p
  | None => raise (OutOfBounds i)
  end.

(** [current->fd[i] = p]. *)
Definition fd_store (i : Z) (p : Z) : kern unit :=
  cur ← get_current;
  match fd cur !! Z.to_nat i with
  | Some _ => put_current (set_fd (<[Z.to_nat i := p]> (fd cur)) cur)
  | None => raise (OutOfBounds i)
  end.

(** [tasks[i]]. *)
Definition tasks_load (i : Z) : kern Z :=
  k ← get;
  match tasks k !! Z.to_nat i with
  | Some p => mret p
  | None => raise (OutOfBounds i)
  end.

(** *** The handlers of [syscall.c] *)

Definition sys_getpid (tf : trapframe) : kern Z :=
  cur ← get_current;
  mret (pid cur).

Definition sys_getppid (tf : trapframe) : kern Z :=
  k ← get;
  t0 ← tasks_load 0;
  if bool_decide (current k = t0) then mret 0
  else
    cur ← get_current;
    parent ← deref (p_pptr cur);
    mret (pid parent).

(** [START_STACK - stack_size], in [uint64_t] arithmetic. *)
Definition stack_limit : Z := to_uint64 (START_STACK - stack_size).

Definition sys_brk (tf : trapframe) : kern Z :=
  let new_brk := arg0 tf in
  cur ← get_current;
  _ ← (if (end_data cur <=? new_brk) && (new_brk <? stack_limit)
       then put_current (set_brk new_brk cur)
       else mret tt);
  cur' ← get_current;
  mret (to_int64 (brk cur')).

(** The [while] loop of [sys_open], from slot [n] on.  The result is
    [Some v] when the loop body returns [v], and [None] when the loop is
    left, by [break] or because [n] reached 4.  The loop runs at most 4
    times; [fuel] bounds the recursion. *)
Fixpoint sys_open_loop (fuel : nat) (tf : trapframe) (n : Z) : kern (option Z) :=
  match fuel with
  | O => raise OutOfFuel
  | S fuel' =>
      if n <? 4 then
        slot ← fd_load n;
        if bool_decide (slot = NULL) then
          k ← get;
          let '(inode, v) := vfs_get_inode (arg0 tf) NULL (vfs k) in
          _ ← modify (set_vfs v);
          _ ← fd_store n inode;
          if bool_decide (inode = NULL) then mret None
          else
            _ ← modify (fun k' => set_vfs (vfs_ref_inode inode (vfs k')) k');
            mret (Some (to_int64 n))
        else sys_open_loop fuel' tf (to_uint64 (n + 1))
      else mret None
  end.

Definition sys_open (tf : trapframe) : kern Z :=
  r ← sys_open_loop 5 tf 0;
  match r with
  | Some v => mret v
  | None => mret (- EAGAIN)
  end.

Definition sys_close (tf : trapframe) : kern Z :=
  let n := arg0 tf in
  if (n <? 0) || (n >? 4) then mret (- EINVAL)
  else
    inode ← fd_load n;
    _ ← fd_store n NULL;
    _ ← modify (fun k => set_vfs (vfs_free_inode inode (vfs k)) k);
    mret 0.

(** The [memcpy] of the stat data to the address in [a1] is the store of one
    record under that address in [ubuf].  The byte extent of the copy and
    what else lies at those addresses are outside this model of the user
    memory: nothing is stated here about the memory the copy leaves alone. *)
Definition sys_stat (tf : trapframe) : kern Z :=
  let n := arg0 tf in
  if (n <? 0) || (n >? 4) then mret (- EINVAL)
  else
    inode ← fd_load n;
    if bool_decide (inode = NULL) then mret (- EINVAL)
    else
      k ← get;
      let stat := vfs_get_stat inode (vfs k) in
      _ ← modify (set_ubuf (<[arg1 tf := stat]> (ubuf k)));
      mret 0.

(** *** [sys_fork] *)

(** Modelled from the spec: the search for the "free table slot" that the
    specification has fork use is not among the sources.  Index of the first
    free slot of the process table from index [i] on. *)
Fixpoint find_empty_from (i : nat) (l : list Z) : option nat :=
  match l with
  | [] => None
  | p :: l' => if bool_decide (p = NULL) then Some i else find_empty_from (S i) l'
  end.

(** Modelled from the spec: part of the missing [sys_fork].  Slot 0, which
    belongs to the init process, is left aside. *)
Definition find_empty_process (l : list Z) : option nat :=
  match l with
  | [] => None
  | _ :: l' => find_empty_from 1 l'
  end.

(** Modelled from the spec: the allocation of pids is part of the missing
    [sys_fork]; the specification asks for a new pid, positive (0 is the pid
    of init) and unique among the PCBs in use.  [max_pid] is the largest pid
    held by a PCB of the heap, 0 at least. *)
Definition max_pid (m : gmap Z task_struct) : Z :=
  map_fold (fun _ t acc => Z.max (pid t) acc) 0 m.

(** Modelled from the spec: part of the missing [sys_fork].  The new pid is
    one more than the largest pid in use. *)
Definition fresh_pid (m : gmap Z task_struct) : Z := max_pid m + 1.

(** Modelled from the spec: part of the missing [sys_fork].  The PCB of the
    child: the new pid, the caller as parent, heap bounds copied, no open
    file, ready to run, and the caller's trap frame with 0 as the result of
    the call. *)
Definition copy_process (new_pid : Z) (tf : trapframe) (parent_ptr : Z)
    (parent : task_struct) : task_struct :=
  {| pid := new_pid; p_pptr := parent_ptr;
     end_data := end_data parent; brk := brk parent;
     fd := replicate NR_FD NULL; state := Ready; context := set_a0 0 tf |}.

(** Modelled from the spec: [sys_fork] is only declared ([extern]) in
    [syscall.c]; its body is not among the sources.  The specification says
    that fork duplicates the calling PCB into a free slot of the process
    table, with a new pid, the caller as parent, brk and end_data copied by
    value, and the trap frame cloned so that the call returns 0 in the child
    and the child's pid in the parent.  When the table is full the call
    fails with [-EAGAIN], per the negative-errno convention of the
    handlers. *)
Definition sys_fork (tf : trapframe) : kern Z :=
  k ← get;
  cur ← get_current;
  match find_empty_process (tasks k) with
  | None => mret (- EAGAIN)
  | Some nr =>
      let p := fresh ({[NULL]} ∪ dom (mem k)) in
      let child := copy_process (fresh_pid (mem k)) tf (current k) cur in
      _ ← modify (fun k' => set_tasks (<[nr := p]> (tasks k'))
                              (set_mem (<[p := child]> (mem k')) k'));
      mret (pid child)
  end.

(** Modelled from the spec: the trap return path is not among the sources.
    The value a stopped process receives from its pending system call when
    it resumes is register [a0] of its saved trap frame. *)
Definition resume_value (t : task_struct) : Z := a0 (gpr (context t)).

(** *** Predicates used in the statements *)

(** The current process is a live PCB with its 4 descriptor slots. *)
Definition current_is (k : kernel) (cur : task_struct) : Prop :=
  mem k !! current k = Some cur /\ length (fd cur) = NR_FD.

(** Slot [i] is the first empty slot of the descriptor table [l]. *)
Definition first_empty (l : list Z) (i : nat) : Prop :=
  l !! i = Some NULL /\ forall j, (j < i)%nat -> l !! j <> Some NULL.

(** No slot of the descriptor table [l] is empty. *)
Definition all_occupied (l : list Z) : Prop :=
  forall i, l !! i <> Some NULL.

(** Every PCB but the one of the init process, whose address is [t0],
    records a parent that is a live PCB with a pid that is not negative. *)
Definition parents_recorded (k : kernel) (t0 : Z) : Prop :=
  forall p t, mem k !! p = Some t -> p <> t0 ->
    exists parent, mem k !! p_pptr t = Some parent /\ 0 <= pid parent.

End Kernel.

(** ** The user-side wrapper [syscall(number, ...)] *)

Section Wrapper.
Context `{KC : KConsts} `{TR : Trap}.

(** User-side state: the process-wide [errno] and the rest of the machine.
    The declaration of [errno] is in [errno.h], not among the sources; the
    cell is taken to hold the [int64_t] value of the expression assigned to
    it. *)
Record user := { errno : Z; mach : machine }.

(** Modelled from the spec: [panic] comes from a header that is not among
    the sources; the specification makes it fatal (the kernel halts with a
    diagnostic and the call does not return). *)
Inductive outcome :=
| Returns (v : Z) (u : user)
| Panics (msg : string).

(** The six arguments are read with [va_arg] as [int64_t] and loaded into
    [a0]..[a5], the number into [a7]; the result of the environment call is
    read back from [a0] as an [int64_t]. *)
Definition syscall (number arg1 arg2 arg3 arg4 arg5 arg6 : Z) (u : user) : outcome :=
  if (0 <? number) && (number <? NR_TASKS) then
    let '(r, m) := ecall arg1 arg2 arg3 arg4 arg5 arg6 number (mach u) in
    let ret := to_int64 r in
    if ret <? 0 then Returns (-1) {| errno := neg ret; mach := m |}
    else Returns ret {| errno := errno u; mach := m |}
  else Panics "Try to call unknown system call".

End Wrapper.


(** ** [sys_read], and what else the handlers' statements need *)

(** The request entry point of the VFS ([fs/vfs.h]), called by [sys_read]
    with an inode, a buffer address, a length, an offset and a direction
    flag.  It acts on the state of the VFS and on the user memory the
    buffer lies in; its result is not used by the handler. *)
Class VfsRequest `{VFS : Vfs} := {
  vfs_inode_request :
    Z -> Z -> Z -> Z -> Z ->
    vfs_state * gmap Z vfs_stat -> vfs_state * gmap Z vfs_stat
}.

(** Third argument register, as a [uint64_t]. *)
Definition arg2 (tf : trapframe) : Z := to_uint64 (a2 (gpr tf)).

Section Read.
Context `{KC : KConsts} `{VFS : Vfs} `{VR : !VfsRequest}.

Definition sys_read (tf : trapframe) : kern Z :=
  let n := arg0 tf in
  if (n <? 0) || (n >? 4) then mret (- EINVAL)
  else
    inode ← fd_load n;
    if bool_decide (inode = NULL) then mret (- EINVAL)
    else
      _ ← modify (fun k =>
             let '(v, u) :=
               vfs_inode_request inode (arg1 tf) (arg2 tf) 0 1 (vfs k, ubuf k) in
             set_ubuf u (set_vfs v k));
      mret 0.

(** The kernel state with [p] as the running process. *)
Definition set_current (p : Z) (k : kernel) : kernel :=
  {| mem := mem k; tasks := tasks k; current := p; vfs := vfs k; ubuf := ubuf k |}.

(** The heap boundary of a PCB lies between the end of its data and the
    bound [sys_brk] checks. *)
Definition heap_ok (t : task_struct) : Prop :=
  end_data t <= brk t < stack_limit.

End Read.

(** ** The system-call table *)

(** [syscall_table]: the handlers by name, in the order of the initialiser;
    the system-call number is the index. *)
Definition syscall_table : list string :=
  [ "sys_init"; "sys_fork"; "sys_test_fork"; "sys_getpid"; "sys_getppid";
    "sys_char"; "sys_block"; "sys_open"; "sys_close"; "sys_stat"; "sys_read";
    "sys_reset"; "sys_brk"; "sys_sigaction"; "sys_kill"; "sys_exit";
    "sys_sigreturn" ]%string.

(** ** The ethernet header ([eth_hdr]) *)

(** [ntohs] comes from [net/net_utils.h], which is not among the sources;
    it is a parameter. *)
Class NetUtils := { ntohs : Z -> Z }.

Definition to_uint16 (z : Z) : Z := z mod 65536.

Definition is_byte (z : Z) : Prop := 0 <= z < 256.

(** A frame buffer is an array of bytes.  [struct eth_hdr] is packed:
    [dmac] is bytes 0 to 5, [smac] bytes 6 to 11, [ethertype] bytes 12 and
    13, and the payload starts at byte 14.  A [uint16_t] in memory is read
    and written in the byte order of the machine, little-endian on RISC-V. *)
Definition load_u16 (b : list Z) (off : nat) : option Z :=
  match b !! off, b !! S off with
  | Some lo, Some hi => Some (lo + 256 * hi)
  | _, _ => None
  end.

Definition store_u16 (b : list Z) (off : nat) (v : Z) : list Z :=
  <[off := v mod 256]> (<[S off := v / 256 mod 256]> b).

Definition eth_dmac (b : list Z) : list Z := take 6 b.
Definition eth_smac (b : list Z) : list Z := take 6 (drop 6 b).
Definition eth_ethertype (b : list Z) : option Z := load_u16 b 12.
Definition eth_payload (b : list Z) : list Z := drop 14 b.

Section Ethernet.
Context `{NU : NetUtils}.

(** [eth_hdr(buffer)]: the [ethertype] member is replaced, in the buffer, by
    its [ntohs]; the result points to the buffer.  [None] stands for a
    buffer too short to hold the member. *)
Definition eth_hdr (buffer : list Z) : option (list Z) :=
  match load_u16 buffer 12 with
  | Some ethertype => Some (store_u16 buffer 12 (to_uint16 (ntohs ethertype)))
  | None => None
  end.

End Ethernet.

(** The exchange of the two bytes of a [uint16_t]. *)
Definition bswap16 (x : Z) : Z := x mod 256 * 256 + x / 256 mod 256.

(** ** A concrete configuration, for running the handlers *)

(** Sample values for the constants: the usual errno numbers, a table of 64
    processes, a user stack of 64 KiB below [0x80000000]. *)
Definition sample_consts : KConsts :=
  {| NR_TASKS := 64; EAGAIN := 11; EINVAL := 22;
     START_STACK := 2147483648; stack_size := 65536 |}.

(** A VFS with one file: the path at address 4096 names inode 8192.  Its
    state is the reference count of each inode; the stat data of an inode is
    a number. *)
Definition sample_vfs : Vfs :=
  {| vfs_state := gmap Z nat;
     vfs_stat := Z;
     vfs_get_inode := fun path _ s =>
       (if bool_decide (path = 4096) then 8192 else NULL, s);
     vfs_ref_inode := fun i s => <[i := S (default O (s !! i))]> s;
     vfs_free_inode := fun i s => <[i := Nat.pred (default O (s !! i))]> s;
     vfs_get_stat := fun i _ => i + 1 |}.

(** A machine whose environment call answers with the call number minus 8:
    negative results for the numbers below 8. *)
Definition sample_trap : Trap :=
  {| machine := unit;
     ecall := fun _ _ _ _ _ _ number m => (number - 8, m) |}.

(** A machine whose environment call answers [INT64_MIN]. *)
Definition min_trap : Trap :=
  {| machine := unit;
     ecall := fun _ _ _ _ _ _ _ m => (min_signed, m) |}.

Definition sample_gprs (x y : Z) : gprs :=
  {| a0 := x; a1 := y; a2 := 0; a3 := 0; a4 := 0; a5 := 0; a6 := 0; a7 := 0 |}.

Definition sample_tf (x y : Z) : trapframe :=
  {| gpr := sample_gprs x y; epc := 0 |}.

(** The trap frame of a call of fork: number 1 in [a7], every register
    and the program counter with a value of its own. *)
Definition sample_fork_tf : trapframe :=
  {| gpr := {| a0 := 10; a1 := 11; a2 := 12; a3 := 13; a4 := 14; a5 := 15;
               a6 := 16; a7 := 1 |};
     epc := 65536 |}.

(** Three processes: init at address 1000; a child of init, of pid 1, at
    address 2000, whose descriptor table is [l]; and a child of that one, of
    pid 2, at address 3000.  The last slot of the process table is free. *)
Definition sample_init : task_struct :=
  {| pid := 0; p_pptr := NULL; end_data := 4096; brk := 8192;
     fd := [NULL; NULL; NULL; NULL]; state := Ready; context := sample_tf 0 0 |}.

Definition sample_task (l : list Z) : task_struct :=
  {| pid := 1; p_pptr := 1000; end_data := 4096; brk := 8192;
     fd := l; state := Running; context := sample_tf 0 0 |}.

Definition sample_grandchild : task_struct :=
  {| pid := 2; p_pptr := 2000; end_data := 4096; brk := 8192;
     fd := [NULL; NULL; NULL; NULL]; state := Ready; context := sample_tf 0 0 |}.

Definition sample_kernel_of (c : Z) (l : list Z) : @kernel sample_vfs :=
  {| mem := {[ 1000 := sample_init; 2000 := sample_task l; 3000 := sample_grandchild ]};
     tasks := [1000; 2000; 3000; NULL];
     current := c;
     vfs := ∅;
     ubuf := ∅ |}.

(** The process of pid 1 is running. *)
Definition sample_kernel (l : list Z) : @kernel sample_vfs := sample_kernel_of 2000 l.

Definition sample_user (TR : Trap) (m : @machine TR) : @user TR :=
  {| errno := 0; mach := m |}.

(** A request entry point that records the length asked for at the buffer
    address. *)
Definition sample_request : @VfsRequest sample_vfs :=
  {| vfs_inode_request := fun _ buf len _ _ '(v, u) => (v, <[buf := len]> u) |}.

(** [ntohs] on a little-endian machine. *)
Definition swap_net : NetUtils := {| ntohs := bswap16 |}.

(** The first 16 bytes of an IPv4 frame: broadcast destination, a source
    address, ethertype [08 00], and two bytes of payload. *)
Definition sample_frame : list Z :=
  [255; 255; 255; 255; 255; 255; 2; 0; 0; 0; 0; 1; 8; 0; 69; 0].

(** ** Facts on machine integers *)

Section Int64Facts.

Lemma to_uint64_range z : is_uint64 (to_uint64 z).
Proof. unfold is_uint64, to_uint64, modulus. apply Z.mod_pos_bound. lia. Qed.

Lemma to_int64_range z : is_int64 (to_int64 z).
Proof.
  unfold is_int64, to_int64, min_signed, max_signed, half_modulus, modulus.
  pose proof (Z.mod_pos_bound (z + 2 ^ 63) (2 ^ 64)). lia.
Qed.

Lemma to_uint64_id z : is_uint64 z -> to_uint64 z = z.
Proof. unfold is_uint64, to_uint64. intros H. by apply Z.mod_small. Qed.

Lemma to_int64_id z : is_int64 z -> to_int64 z = z.
Proof.
  unfold is_int64, to_int64, min_signed, max_signed, half_modulus, modulus.
  intros H. rewrite Z.mod_small; lia.
Qed.

Lemma neg_exact z : min_signed < z <= max_signed -> neg z = - z.
Proof.
  unfold neg, min_signed, max_signed. intros H.
  apply to_int64_id. unfold is_int64, min_signed, max_signed. lia.
Qed.

Lemma neg_min_signed : neg min_signed = min_signed.
Proof. reflexivity. Qed.

End Int64Facts.

(** ** Running the monad *)

Section Run.
Context `{KC : KConsts} `{VFS : Vfs}.

Lemma run_bind {A B} (m : kern A) (f : A -> kern B) k a k' :
  m k = Ok a k' -> (m ≫= f) k = f a k'.
Proof. intros H. unfold mbind, kern_bind. by rewrite H. Qed.

Lemma run_bind_fault {A B} (m : kern A) (f : A -> kern B) k e :
  m k = Fault e -> (m ≫= f) k = Fault e.
Proof. intros H. unfold mbind, kern_bind. by rewrite H. Qed.

Lemma run_get_current k cur :
  mem k !! current k = Some cur -> get_current k = Ok cur k.
Proof.
  intros H. unfold get_current. rewrite (run_bind get _ k k k); [|done].
  unfold deref. by rewrite H.
Qed.

Lemma run_put_current k cur t :
  mem k !! current k = Some cur ->
  put_current t k = Ok tt (set_mem (<[current k := t]> (mem k)) k).
Proof.
  intros H. unfold put_current. rewrite (run_bind get _ k k k); [|done].
  rewrite (run_bind (deref (current k)) _ k cur k); [done|].
  unfold deref. by rewrite H.
Qed.

Lemma current_after_put k t :
  mem (set_mem (<[current k := t]> (mem k)) k)
    !! current (set_mem (<[current k := t]> (mem k)) k) = Some t.
Proof. simpl. apply lookup_insert_eq. Qed.

Lemma set_mem_id k : set_mem (mem k) k = k.
Proof. by destruct k. Qed.

Lemma set_brk_id t : set_brk (brk t) t = t.
Proof. by destruct t. Qed.

Lemma set_fd_id t : set_fd (fd t) t = t.
Proof. by destruct t. Qed.

Lemma put_same k cur :
  mem k !! current k = Some cur ->
  set_mem (<[current k := cur]> (mem k)) k = k.
Proof. intros H. rewrite insert_id; [apply set_mem_id | done]. Qed.

Lemma run_fd_load k cur i p :
  mem k !! current k = Some cur ->
  fd cur !! Z.to_nat i = Some p ->
  fd_load i k = Ok p k.
Proof.
  intros H Hi. unfold fd_load.
  rewrite (run_bind _ _ _ _ _ (run_get_current k cur H)). by rewrite Hi.
Qed.

Lemma run_fd_load_oob k cur i :
  mem k !! current k = Some cur ->
  fd cur !! Z.to_nat i = None ->
  fd_load i k = Fault (OutOfBounds i).
Proof.
  intros H Hi. unfold fd_load.
  rewrite (run_bind _ _ _ _ _ (run_get_current k cur H)). by rewrite Hi.
Qed.

Lemma run_fd_store k cur i p q :
  mem k !! current k = Some cur ->
  fd cur !! Z.to_nat i = Some q ->
  fd_store i p k =
    Ok tt (set_mem (<[current k := set_fd (<[Z.to_nat i := p]> (fd cur)) cur]> (mem k)) k).
Proof.
  intros H Hi. unfold fd_store.
  rewrite (run_bind _ _ _ _ _ (run_get_current k cur H)). rewrite Hi.
  by apply run_put_current with cur.
Qed.

End Run.

(** One step of a run: rewrite with the result [H] of the computation at
    the head of a bind. *)
Tactic Notation "kstep" uconstr(H) := rewrite (run_bind _ _ _ _ _ H).

(** A bind on [get] or on a [modify] runs by computation. *)
Ltac kget := rewrite (run_bind get _ _ _ _ eq_refl).

(** ** [sys_brk] *)

Section Brk.
Context `{KC : KConsts} `{VFS : Vfs}.

Lemma stack_limit_exact :
  0 <= stack_size <= START_STACK -> START_STACK <= 2 ^ 63 ->
  stack_limit = START_STACK - stack_size.
Proof.
  intros H1 H2. unfold stack_limit. apply to_uint64_id.
  unfold is_uint64, modulus. lia.
Qed.

Lemma sys_brk_accept tf k cur :
  mem k !! current k = Some cur ->
  end_data cur <= arg0 tf < stack_limit ->
  sys_brk tf k =
    Ok (to_int64 (arg0 tf))
       (set_mem (<[current k := set_brk (arg0 tf) cur]> (mem k)) k).
Proof.
  intros Hcur [Hlo Hhi]. unfold sys_brk.
  kstep (run_get_current k cur Hcur).
  rewrite (proj2 (Z.leb_le _ _) Hlo), (proj2 (Z.ltb_lt _ _) Hhi). simpl andb. cbv iota.
  kstep (run_put_current k cur _ Hcur).
  kstep (run_get_current _ _ (current_after_put k _)).
  reflexivity.
Qed.

Lemma sys_brk_ignore tf k cur :
  mem k !! current k = Some cur ->
  ~ (end_data cur <= arg0 tf < stack_limit) ->
  sys_brk tf k = Ok (to_int64 (brk cur)) k.
Proof.
  intros Hcur Hout. unfold sys_brk.
  kstep (run_get_current k cur Hcur).
  assert ((end_data cur <=? arg0 tf) && (arg0 tf <? stack_limit) = false) as ->.
  { apply andb_false_iff. rewrite Z.leb_gt, Z.ltb_ge. lia. }
  rewrite (run_bind (mret tt) _ k tt k); [|done].
  kstep (run_get_current k cur Hcur).
  reflexivity.
Qed.

(** C4: [brk(b)] stores [b] exactly when [end_data <= b < START_STACK -
    stack_size] and leaves the stored brk alone otherwise; it returns the
    stored brk, which is never negative (no error is ever returned); a
    second call with the same argument changes nothing and returns the
    same value.  The stack top lies in the lower half of the address space
    and the stored brk is below [2^63]. *)
Theorem sys_brk_guarded tf k cur :
  0 <= stack_size <= START_STACK -> START_STACK <= 2 ^ 63 ->
  current_is k cur -> 0 <= brk cur < 2 ^ 63 ->
  let b := arg0 tf in
  let brk' :=
    if decide (end_data cur <= b < START_STACK - stack_size) then b else brk cur in
  let k' := set_mem (<[current k := set_brk brk' cur]> (mem k)) k in
  sys_brk tf k = Ok brk' k'
  /\ mem k' !! current k' = Some (set_brk brk' cur)
  /\ (~ (end_data cur <= b < START_STACK - stack_size) -> k' = k)
  /\ 0 <= brk'
  /\ sys_brk tf k' = Ok brk' k'.
Proof.
  intros Hs Ht [Hcur _] Hb b brk' k'.
  pose proof (stack_limit_exact Hs Ht) as Hlim.
  pose proof (to_uint64_range (a0 (gpr tf))) as Hb64. fold (arg0 tf) in Hb64.
  unfold is_uint64, modulus in Hb64. fold b in Hb64.
  assert (Hcur' : mem k' !! current k' = Some (set_brk brk' cur))
    by apply current_after_put.
  assert (Hrange : 0 <= brk' < 2 ^ 63).
  { unfold brk'. case_decide; lia. }
  assert (Hret : to_int64 brk' = brk').
  { apply to_int64_id. unfold is_int64, min_signed, max_signed. lia. }
  assert (Hsame : ~ (end_data cur <= b < START_STACK - stack_size) -> k' = k).
  { intros Hout. unfold k', brk'. rewrite decide_False by done.
    rewrite set_brk_id. by apply put_same. }
  split_and!; [| done | done | lia |].
  - unfold brk' in *. case_decide as Hin.
    + rewrite (sys_brk_accept tf k cur Hcur) by (fold b; lia).
      fold b. by rewrite Hret.
    + rewrite (sys_brk_ignore tf k cur Hcur) by (fold b; lia).
      rewrite Hsame by done. f_equal. apply to_int64_id.
      unfold is_int64, min_signed, max_signed. lia.
  - unfold brk' in *. case_decide as Hin.
    + rewrite (sys_brk_accept tf k' _ Hcur') by (simpl; fold b; lia).
      fold b. rewrite Hret. f_equal. unfold k', set_mem, set_brk. simpl.
      by rewrite insert_insert_eq.
    + rewrite Hsame in * by done.
      rewrite (sys_brk_ignore tf k cur Hcur) by (fold b; lia).
      f_equal. apply to_int64_id. unfold is_int64, min_signed, max_signed. lia.
Qed.

End Brk.

(** [sys_brk_guarded] at a process whose heap is [[4096, 8192)] and that
    asks for 12288. *)
Lemma sys_brk_guarded_witness :
  let k := sample_kernel [NULL; NULL; NULL; NULL] in
  let k' := set_mem (<[2000 := set_brk 12288 (sample_task [NULL; NULL; NULL; NULL])]> (mem k)) k in
  sys_brk (KC := sample_consts) (sample_tf 12288 0) k = Ok 12288 k'
  /\ sys_brk (KC := sample_consts) (sample_tf 12288 0) k' = Ok 12288 k'.
Proof.
  pose proof (sys_brk_guarded (KC := sample_consts) (sample_tf 12288 0)
                (sample_kernel [NULL; NULL; NULL; NULL])
                (sample_task [NULL; NULL; NULL; NULL])) as H.
  destruct H as (H1 & _ & _ & _ & H2).
  - simpl; lia.
  - simpl; lia.
  - split; reflexivity.
  - simpl; lia.
  - split; [exact H1 | exact H2].
Defined.



(** ** [sys_open] *)

Section Open.
Context `{KC : KConsts} `{VFS : Vfs}.

Lemma to_uint64_succ n : 0 <= n < 4 -> to_uint64 (n + 1) = n + 1.
Proof. intros H. apply to_uint64_id. unfold is_uint64, modulus. lia. Qed.

(** Occupied slots are stepped over, one iteration each. *)
Lemma sys_open_loop_skip tf k cur (d : nat) : forall fuel n,
  mem k !! current k = Some cur ->
  0 <= n -> n + Z.of_nat d <= 4 ->
  (forall j, (Z.to_nat n <= j < Z.to_nat n + d)%nat ->
     exists p, fd cur !! j = Some p /\ p <> NULL) ->
  sys_open_loop (d + fuel) tf n k = sys_open_loop fuel tf (n + Z.of_nat d) k.
Proof.
  induction d as [|d IH]; intros fuel n Hcur Hn Hd Hocc.
  - simpl. by rewrite Z.add_0_r.
  - change (S d + fuel)%nat with (S (d + fuel)). cbn [sys_open_loop].
    assert ((n <? 4) = true) as -> by (apply Z.ltb_lt; lia).
    destruct (Hocc (Z.to_nat n)) as (p & Hp & Hnz); [lia|].
    kstep (run_fd_load k cur n p Hcur Hp).
    rewrite bool_decide_eq_false_2 by done.
    rewrite to_uint64_succ by lia.
    rewrite IH; [f_equal; lia | done | lia | lia |].
    intros j Hj. apply Hocc. lia.
Qed.

(** The iteration that meets an empty slot: one lookup, then either the
    slot is bound and its index returned, or the loop is left. *)
Lemma sys_open_loop_empty tf k cur fuel n :
  mem k !! current k = Some cur ->
  0 <= n < 4 ->
  fd cur !! Z.to_nat n = Some NULL ->
  sys_open_loop (S fuel) tf n k =
    let '(inode, v) := vfs_get_inode (arg0 tf) NULL (vfs k) in
    if bool_decide (inode = NULL) then Ok None (set_vfs v k)
    else Ok (Some n)
            (set_vfs (vfs_ref_inode inode v)
               (set_mem (<[current k := set_fd (<[Z.to_nat n := inode]> (fd cur)) cur]>
                           (mem k)) k)).
Proof.
  intros Hcur Hn Hslot. cbn [sys_open_loop].
  assert ((n <? 4) = true) as -> by (apply Z.ltb_lt; lia).
  kstep (run_fd_load k cur n NULL Hcur Hslot).
  rewrite bool_decide_eq_true_2 by done.
  kget.
  destruct (vfs_get_inode (arg0 tf) NULL (vfs k)) as [inode v].
  rewrite (run_bind (modify (set_vfs v)) _ k tt (set_vfs v k)) by done.
  kstep (run_fd_store (set_vfs v k) cur n inode NULL Hcur Hslot).
  case_bool_decide as Hi.
  - subst inode. unfold mret, kern_ret. f_equal.
    rewrite list_insert_id by done. rewrite set_fd_id.
    by rewrite (put_same (set_vfs v k) cur).
  - unfold mbind, kern_bind, modify, mret, kern_ret. simpl. f_equal.
    f_equal. apply to_int64_id. unfold is_int64, min_signed, max_signed. lia.
Qed.

Lemma sys_open_loop_end tf k fuel : sys_open_loop (S fuel) tf 4 k = Ok None k.
Proof. reflexivity. Qed.

Lemma first_empty_or_all_occupied (l : list Z) :
  all_occupied l \/ exists i, first_empty l i.
Proof.
  induction l as [|x l IH].
  - left. intros i. by rewrite lookup_nil.
  - destruct (decide (x = NULL)) as [->|Hx].
    + right. exists O. split; [done | intros j Hj; lia].
    + destruct IH as [Hall | [i [Hi Hbefore]]].
      * left. intros [|i]; simpl; [congruence | apply Hall].
      * right. exists (S i). split; [done|].
        intros [|j] Hj; simpl; [congruence | apply Hbefore; lia].
Qed.

Lemma first_empty_not_all_occupied (l : list Z) i :
  first_empty l i -> ~ all_occupied l.
Proof. intros [Hi _] Hall. by apply (Hall i). Qed.

Lemma first_empty_lt (l : list Z) i : first_empty l i -> (i < length l)%nat.
Proof. intros [Hi _]. by apply lookup_lt_Some in Hi. Qed.

Lemma occupied_before (l : list Z) i j :
  first_empty l i -> (j < i)%nat -> exists p, l !! j = Some p /\ p <> NULL.
Proof.
  intros Hfe Hj. pose proof (first_empty_lt _ _ Hfe) as Hlen.
  destruct (lookup_lt_is_Some_2 l j) as [p Hp]; [lia|].
  exists p. split; [done|]. intros ->. destruct Hfe as [_ Hb]. by apply (Hb j).
Qed.

(** What [sys_open] does, by the first empty slot. *)
Lemma sys_open_at_first_empty tf k cur i :
  current_is k cur -> first_empty (fd cur) i ->
  sys_open tf k =
    let '(inode, v) := vfs_get_inode (arg0 tf) NULL (vfs k) in
    if bool_decide (inode = NULL) then Ok (- EAGAIN) (set_vfs v k)
    else Ok (Z.of_nat i)
            (set_vfs (vfs_ref_inode inode v)
               (set_mem (<[current k := set_fd (<[i := inode]> (fd cur)) cur]>
                           (mem k)) k)).
Proof.
  intros [Hcur Hlen] Hfe.
  pose proof (first_empty_lt _ _ Hfe) as Hi. rewrite Hlen in Hi. unfold NR_FD in Hi.
  unfold sys_open.
  replace 5%nat with (i + S (4 - i))%nat by lia. unfold mbind, kern_bind.
  rewrite (sys_open_loop_skip tf k cur i (S (4 - i)) 0 Hcur); [| lia | lia |].
  2:{ intros j Hj. apply (occupied_before _ i); [done | lia]. }
  rewrite Z.add_0_l.
  rewrite (sys_open_loop_empty tf k cur _ (Z.of_nat i) Hcur); [| lia |].
  2:{ rewrite Nat2Z.id. apply Hfe. }
  rewrite Nat2Z.id.
  destruct (vfs_get_inode (arg0 tf) NULL (vfs k)) as [inode v].
  by case_bool_decide.
Qed.

Lemma sys_open_all_occupied tf k cur :
  current_is k cur -> all_occupied (fd cur) ->
  sys_open tf k = Ok (- EAGAIN) k.
Proof.
  intros [Hcur Hlen] Hall. unfold sys_open.
  change 5%nat with (4 + 1)%nat. unfold mbind, kern_bind.
  rewrite (sys_open_loop_skip tf k cur 4 1 0 Hcur); [done | lia | lia |].
  intros j Hj. destruct (lookup_lt_is_Some_2 (fd cur) j) as [p Hp].
  { rewrite Hlen. unfold NR_FD. lia. }
  exists p. split; [done|]. intros ->. by apply (Hall j).
Qed.

(** C3: [open] examines slots 0, 1, 2, 3 in order; at the first empty slot
    it looks the path up, once; when the lookup succeeds the slot is bound
    to the inode and its index returned; when it fails no later slot is
    tried and the result is [-EAGAIN]; when no slot is empty the result is
    [-EAGAIN]. *)
Theorem sys_open_scan tf k cur inode v :
  current_is k cur ->
  vfs_get_inode (arg0 tf) NULL (vfs k) = (inode, v) ->
  (forall i, first_empty (fd cur) i ->
     (i < 4)%nat
     /\ (inode <> NULL ->
         sys_open tf k =
           Ok (Z.of_nat i)
              (set_vfs (vfs_ref_inode inode v)
                 (set_mem (<[current k := set_fd (<[i := inode]> (fd cur)) cur]>
                             (mem k)) k)))
     /\ (inode = NULL -> sys_open tf k = Ok (- EAGAIN) (set_vfs v k)))
  /\ (all_occupied (fd cur) -> sys_open tf k = Ok (- EAGAIN) k).
Proof.
  intros Hk Hlookup. split.
  - intros i Hfe.
    pose proof (sys_open_at_first_empty tf k cur i Hk Hfe) as Hrun.
    rewrite Hlookup in Hrun.
    split_and!.
    + destruct Hk as [_ Hlen]. apply first_empty_lt in Hfe.
      rewrite Hlen in Hfe. exact Hfe.
    + intros Hi. by rewrite bool_decide_eq_false_2 in Hrun.
    + intros Hi. by rewrite bool_decide_eq_true_2 in Hrun.
  - by apply sys_open_all_occupied.
Qed.

(** C5, amended: [open] returns [-EAGAIN] exactly when all 4 slots are
    occupied or the path lookup fails. *)
Theorem sys_open_eagain_iff tf k cur :
  current_is k cur -> 0 < EAGAIN ->
  (exists k', sys_open tf k = Ok (- EAGAIN) k')
  <-> (all_occupied (fd cur) \/ (vfs_get_inode (arg0 tf) NULL (vfs k)).1 = NULL).
Proof.
  intros Hk Hpos. split.
  - intros [k' Hrun].
    destruct (first_empty_or_all_occupied (fd cur)) as [Hall | [i Hfe]]; [by left|].
    right. rewrite (sys_open_at_first_empty tf k cur i Hk Hfe) in Hrun.
    destruct (vfs_get_inode (arg0 tf) NULL (vfs k)) as [inode v]. simpl.
    case_bool_decide; [done|]. injection Hrun as Hv _. lia.
  - intros [Hall | Hfail].
    + exists k. by apply (sys_open_all_occupied tf k cur).
    + destruct (first_empty_or_all_occupied (fd cur)) as [Hall | [i Hfe]].
      * exists k. by apply (sys_open_all_occupied tf k cur).
      * rewrite (sys_open_at_first_empty tf k cur i Hk Hfe).
        destruct (vfs_get_inode (arg0 tf) NULL (vfs k)) as [inode v].
        simpl in Hfail. rewrite bool_decide_eq_true_2 by done. by eexists.
Qed.

(** C9: when [open] returns [-EAGAIN] the PCB of the caller, its descriptor
    table included, is as before the call. *)
Theorem sys_open_failure_keeps_table tf k cur k' :
  current_is k cur -> 0 < EAGAIN ->
  sys_open tf k = Ok (- EAGAIN) k' ->
  mem k' = mem k /\ current k' = current k
  /\ exists cur', mem k' !! current k' = Some cur' /\ fd cur' = fd cur.
Proof.
  intros Hk Hpos Hrun.
  assert (mem k' = mem k /\ current k' = current k) as [Hm Hc].
  { destruct (first_empty_or_all_occupied (fd cur)) as [Hall | [i Hfe]].
    - rewrite (sys_open_all_occupied tf k cur Hk Hall) in Hrun.
      by injection Hrun as <-.
    - rewrite (sys_open_at_first_empty tf k cur i Hk Hfe) in Hrun.
      destruct (vfs_get_inode (arg0 tf) NULL (vfs k)) as [inode v].
      case_bool_decide.
      + by injection Hrun as <-.
      + injection Hrun as Hv _. lia. }
  split_and!; [done | done |].
  exists cur. rewrite Hm, Hc. split; [apply Hk | done].
Qed.

End Open.


(** ** [sys_close] and [sys_stat] *)

Section CloseStat.
Context `{KC : KConsts} `{VFS : Vfs}.

Lemma arg0_nonneg tf : 0 <= arg0 tf.
Proof. pose proof (to_uint64_range (a0 (gpr tf))) as H. unfold is_uint64 in H. apply H. Qed.

(** The guard [fd < 0 || fd > 4] of [sys_close], [sys_stat] and [sys_read]
    holds exactly for the descriptors above 4. *)
Lemma fd_guard tf : (arg0 tf <? 0) || (arg0 tf >? 4) = true <-> 4 < arg0 tf.
Proof.
  pose proof (arg0_nonneg tf). rewrite orb_true_iff, Z.ltb_lt, Z.gtb_gt. lia.
Qed.

Lemma fd_guard_false tf : arg0 tf <= 4 -> (arg0 tf <? 0) || (arg0 tf >? 4) = false.
Proof.
  intros H. apply not_true_is_false. rewrite fd_guard. lia.
Qed.

Lemma slot_4_outside cur : length (fd cur) = NR_FD -> fd cur !! Z.to_nat 4 = None.
Proof. intros H. apply lookup_ge_None_2. rewrite H. unfold NR_FD. lia. Qed.

Lemma sys_close_rejects tf k : 4 < arg0 tf -> sys_close tf k = Ok (- EINVAL) k.
Proof. intros H. unfold sys_close. by rewrite (proj2 (fd_guard tf) H). Qed.

Lemma sys_close_clears tf k cur p :
  mem k !! current k = Some cur ->
  fd cur !! Z.to_nat (arg0 tf) = Some p ->
  arg0 tf < 4 ->
  sys_close tf k =
    Ok 0 (set_vfs (vfs_free_inode p (vfs k))
            (set_mem (<[current k := set_fd (<[Z.to_nat (arg0 tf) := NULL]> (fd cur)) cur]>
                        (mem k)) k)).
Proof.
  intros Hcur Hslot Hlt. unfold sys_close. rewrite fd_guard_false by lia.
  kstep (run_fd_load k cur _ p Hcur Hslot).
  kstep (run_fd_store k cur _ NULL p Hcur Hslot).
  reflexivity.
Qed.

(** C2: the guard of [sys_close] lets descriptor 4 through; the handler
    then accesses [current->fd[4]], outside the 4 slots of the table,
    instead of returning [-EINVAL]. *)
Theorem sys_close_fd_4 tf k cur :
  current_is k cur -> arg0 tf = 4 ->
  sys_close tf k = Fault (OutOfBounds 4).
Proof.
  intros [Hcur Hlen] H4. unfold sys_close. rewrite fd_guard_false by lia.
  rewrite H4.
  by rewrite (run_bind_fault _ _ _ _ (run_fd_load_oob k cur 4 Hcur (slot_4_outside cur Hlen))).
Qed.

Lemma sys_stat_rejects tf k : 4 < arg0 tf -> sys_stat tf k = Ok (- EINVAL) k.
Proof. intros H. unfold sys_stat. by rewrite (proj2 (fd_guard tf) H). Qed.

Lemma sys_stat_empty_slot tf k cur :
  mem k !! current k = Some cur ->
  fd cur !! Z.to_nat (arg0 tf) = Some NULL ->
  sys_stat tf k = Ok (- EINVAL) k.
Proof.
  intros Hcur Hslot. unfold sys_stat.
  destruct ((arg0 tf <? 0) || (arg0 tf >? 4)); [done|].
  kstep (run_fd_load k cur _ NULL Hcur Hslot).
  by rewrite bool_decide_eq_true_2.
Qed.

Lemma sys_stat_fills tf k cur p :
  mem k !! current k = Some cur ->
  fd cur !! Z.to_nat (arg0 tf) = Some p -> p <> NULL ->
  arg0 tf < 4 ->
  sys_stat tf k =
    Ok 0 (set_ubuf (<[arg1 tf := vfs_get_stat p (vfs k)]> (ubuf k)) k).
Proof.
  intros Hcur Hslot Hp Hlt. unfold sys_stat. rewrite fd_guard_false by lia.
  kstep (run_fd_load k cur _ p Hcur Hslot).
  by rewrite bool_decide_eq_false_2.
Qed.

(** After [close(fd)], for a descriptor of the table, [stat(fd, buf)]
    returns [-EINVAL]. *)
Lemma sys_stat_after_close tf tf' k cur k' :
  current_is k cur -> arg0 tf < 4 -> arg0 tf' = arg0 tf ->
  sys_close tf k = Ok 0 k' ->
  sys_stat tf' k' = Ok (- EINVAL) k'.
Proof.
  intros [Hcur Hlen] Hlt Heq Hclose.
  pose proof (arg0_nonneg tf) as Hge.
  destruct (lookup_lt_is_Some_2 (fd cur) (Z.to_nat (arg0 tf))) as [p Hp].
  { rewrite Hlen. unfold NR_FD. lia. }
  rewrite (sys_close_clears tf k cur p Hcur Hp Hlt) in Hclose.
  injection Hclose as <-.
  eapply sys_stat_empty_slot.
  - simpl. apply lookup_insert_eq.
  - simpl. rewrite Heq. apply list_lookup_insert_eq. by apply lookup_lt_Some in Hp.
Qed.

(** C6: the guard of [sys_stat] lets descriptor 4 through; the handler then
    reads [current->fd[4]], outside the 4 slots of the table, instead of
    returning [-EINVAL]. *)
Theorem sys_stat_fd_4 tf k cur :
  current_is k cur -> arg0 tf = 4 ->
  sys_stat tf k = Fault (OutOfBounds 4).
Proof.
  intros [Hcur Hlen] H4. unfold sys_stat. rewrite fd_guard_false by lia.
  rewrite H4.
  by rewrite (run_bind_fault _ _ _ _ (run_fd_load_oob k cur 4 Hcur (slot_4_outside cur Hlen))).
Qed.

End CloseStat.

(** ** [sys_getppid] *)

Section Getppid.
Context `{KC : KConsts} `{VFS : Vfs}.

Lemma run_tasks_load k i p :
  tasks k !! Z.to_nat i = Some p -> tasks_load i k = Ok p k.
Proof.
  intros H. unfold tasks_load. kget. by rewrite H.
Qed.

Lemma sys_getppid_init tf k :
  tasks k !! O = Some (current k) -> sys_getppid tf k = Ok 0 k.
Proof.
  intros H0. unfold sys_getppid.
  kget.
  kstep (run_tasks_load k 0 _ H0).
  by rewrite bool_decide_eq_true_2.
Qed.

Lemma sys_getppid_child tf k t0 cur parent :
  tasks k !! O = Some t0 -> current k <> t0 ->
  mem k !! current k = Some cur ->
  mem k !! p_pptr cur = Some parent ->
  sys_getppid tf k = Ok (pid parent) k.
Proof.
  intros H0 Hne Hcur Hpar. unfold sys_getppid.
  kget.
  kstep (run_tasks_load k 0 _ H0).
  rewrite bool_decide_eq_false_2 by done.
  kstep (run_get_current k cur Hcur).
  rewrite (run_bind (deref (p_pptr cur)) _ k parent k); [done|].
  unfold deref. by rewrite Hpar.
Qed.

(** C7: [getppid] returns 0 to the init process ([tasks[0]]) and the pid
    of the recorded parent to any other process; given that every PCB but
    init records a live parent, it returns a value and that value is not
    negative. *)
Theorem sys_getppid_spec tf k t0 cur :
  tasks k !! O = Some t0 ->
  parents_recorded k t0 ->
  mem k !! current k = Some cur ->
  exists v, sys_getppid tf k = Ok v k /\ 0 <= v
    /\ (current k = t0 -> v = 0)
    /\ (current k <> t0 ->
        exists parent, mem k !! p_pptr cur = Some parent /\ v = pid parent).
Proof.
  intros H0 Hinv Hcur.
  destruct (decide (current k = t0)) as [Heq | Hne].
  - exists 0. split_and!; [| done | done | done].
    apply sys_getppid_init. by rewrite Heq.
  - destruct (Hinv _ _ Hcur Hne) as (parent & Hpar & Hpid).
    exists (pid parent). split_and!; [| done | done |].
    + by apply (sys_getppid_child tf k t0 cur parent).
    + intros _. by exists parent.
Qed.

End Getppid.

(** ** [sys_fork] *)

Section Fork.
Context `{KC : KConsts} `{VFS : Vfs}.

Lemma find_empty_from_spec (l : list Z) : forall i nr,
  find_empty_from i l = Some nr ->
  (i <= nr)%nat /\ l !! (nr - i)%nat = Some NULL.
Proof.
  induction l as [|p l IH]; intros i nr H; simpl in H; [done|].
  case_bool_decide as Hp.
  - injection H as <-. rewrite Nat.sub_diag. by subst p.
  - apply IH in H as [Hle Hl]. split; [lia|].
    replace (nr - i)%nat with (S (nr - S i)) by lia. done.
Qed.

Lemma find_empty_process_spec (l : list Z) nr :
  find_empty_process l = Some nr ->
  (0 < nr)%nat /\ l !! nr = Some NULL.
Proof.
  destruct l as [|p l]; [done|]. simpl. intros H.
  apply find_empty_from_spec in H as [Hle Hl]. split; [lia|].
  destruct nr as [|nr]; [lia|]. simpl.
  by replace (S nr - 1)%nat with nr in Hl by lia.
Qed.

Lemma fresh_pcb_address (m : gmap Z task_struct) :
  m !! fresh ({[NULL]} ∪ dom m) = None /\ fresh ({[NULL]} ∪ dom m) <> NULL.
Proof.
  pose proof (is_fresh ({[NULL]} ∪ dom m)) as Hf.
  split.
  - apply not_elem_of_dom. set_solver.
  - set_solver.
Qed.

Lemma max_pid_spec (m : gmap Z task_struct) :
  0 <= max_pid m /\ forall p t, m !! p = Some t -> pid t <= max_pid m.
Proof.
  unfold max_pid.
  apply (map_fold_weak_ind
           (fun r (m : gmap Z task_struct) =>
              0 <= r /\ forall p t, m !! p = Some t -> pid t <= r)).
  - split; [lia|]. intros p t H. by rewrite lookup_empty in H.
  - intros i x m' r Hi [Hr Hall]. split; [lia|].
    intros p t Hp. apply lookup_insert_Some in Hp as [[_ <-] | [_ Hp]]; [lia|].
    specialize (Hall _ _ Hp). lia.
Qed.

Lemma fresh_pid_spec (m : gmap Z task_struct) :
  0 < fresh_pid m /\ forall p t, m !! p = Some t -> pid t <> fresh_pid m.
Proof.
  destruct (max_pid_spec m) as [Hpos Hall]. unfold fresh_pid. split; [lia|].
  intros p t Hp. specialize (Hall _ _ Hp). lia.
Qed.

(** What a fork that finds slot [nr] free does. *)
Lemma sys_fork_run tf k cur nr :
  mem k !! current k = Some cur ->
  find_empty_process (tasks k) = Some nr ->
  let p := fresh ({[NULL]} ∪ dom (mem k)) in
  sys_fork tf k =
    Ok (fresh_pid (mem k))
       (set_tasks (<[nr := p]> (tasks k))
          (set_mem (<[p := copy_process (fresh_pid (mem k)) tf (current k) cur]>
                      (mem k)) k)).
Proof.
  intros Hcur Hfree p. unfold sys_fork.
  kget.
  kstep (run_get_current k cur Hcur).
  by rewrite Hfree.
Qed.

Lemma sys_fork_full tf k cur :
  mem k !! current k = Some cur ->
  find_empty_process (tasks k) = None ->
  sys_fork tf k = Ok (- EAGAIN) k.
Proof.
  intros Hcur Hfull. unfold sys_fork.
  kget.
  kstep (run_get_current k cur Hcur).
  by rewrite Hfull.
Qed.

(** C8: a fork that succeeds, that is, returns a value [r] that is not
    negative, returns to the parent the pid of the child, which is positive
    and is the pid of no PCB that existed before the call.  The child is
    one new PCB, put in a slot of the process table that was free; its
    parent is the caller; its saved trap frame is the trap frame of the
    caller's call, register by register and with the same program counter,
    but for [a0], which is 0: resumed, the child returns from the same call
    with 0.  The caller remains the running process and its PCB is
    untouched. *)
Theorem sys_fork_double_return tf k cur r k' :
  mem k !! current k = Some cur -> 0 < EAGAIN ->
  sys_fork tf k = Ok r k' -> 0 <= r ->
  0 < r
  /\ (forall q t, mem k !! q = Some t -> pid t <> r)
  /\ (exists nr cp child,
        (0 < nr)%nat /\ tasks k !! nr = Some NULL
        /\ tasks k' = <[nr := cp]> (tasks k)
        /\ cp <> NULL /\ mem k !! cp = None
        /\ mem k' = <[cp := child]> (mem k)
        /\ pid child = r /\ p_pptr child = current k
        /\ state child = Ready
        /\ resume_value child = 0
        /\ a1 (gpr (context child)) = a1 (gpr tf)
        /\ a2 (gpr (context child)) = a2 (gpr tf)
        /\ a3 (gpr (context child)) = a3 (gpr tf)
        /\ a4 (gpr (context child)) = a4 (gpr tf)
        /\ a5 (gpr (context child)) = a5 (gpr tf)
        /\ a6 (gpr (context child)) = a6 (gpr tf)
        /\ a7 (gpr (context child)) = a7 (gpr tf)
        /\ epc (context child) = epc tf
        /\ brk child = brk cur /\ end_data child = end_data cur
        /\ fd child = [NULL; NULL; NULL; NULL])
  /\ current k' = current k
  /\ mem k' !! current k' = Some cur
  /\ vfs k' = vfs k /\ ubuf k' = ubuf k.
Proof.
  intros Hcur Hpos Hrun Hr.
  destruct (find_empty_process (tasks k)) as [nr|] eqn:Hfree.
  - pose proof (sys_fork_run tf k cur nr Hcur Hfree) as Hrun'. simpl in Hrun'.
    rewrite Hrun' in Hrun. injection Hrun as <- <-.
    destruct (find_empty_process_spec _ _ Hfree) as [Hnr Hslot].
    destruct (fresh_pcb_address (mem k)) as [Hnew Hnn].
    destruct (fresh_pid_spec (mem k)) as [Hpid Hunused].
    set (p := fresh ({[NULL]} ∪ dom (mem k))) in *.
    split_and!.
    + exact Hpid.
    + exact Hunused.
    + exists nr, p, (copy_process (fresh_pid (mem k)) tf (current k) cur).
      split_and!; done.
    + done.
    + simpl. rewrite lookup_insert_ne; [done|]. intros Heq.
      rewrite <- Heq in Hcur. congruence.
    + done.
    + done.
  - rewrite (sys_fork_full tf k cur Hcur Hfree) in Hrun.
    injection Hrun as <- _. lia.
Qed.

End Fork.

(** ** The wrapper [syscall(number, ...)] *)

Section WrapperFacts.
Context `{KC : KConsts} `{TR : Trap}.

Lemma syscall_unknown number x1 x2 x3 x4 x5 x6 u :
  number <= 0 \/ NR_TASKS <= number ->
  syscall number x1 x2 x3 x4 x5 x6 u = Panics "Try to call unknown system call".
Proof.
  intros H. unfold syscall.
  assert ((0 <? number) && (number <? NR_TASKS) = false) as ->; [|done].
  apply andb_false_iff. rewrite Z.ltb_ge, Z.ltb_ge. lia.
Qed.

Lemma syscall_known number x1 x2 x3 x4 x5 x6 u :
  0 < number < NR_TASKS ->
  syscall number x1 x2 x3 x4 x5 x6 u =
    let '(r, m) := ecall x1 x2 x3 x4 x5 x6 number (mach u) in
    if to_int64 r <? 0 then Returns (-1) {| errno := neg (to_int64 r); mach := m |}
    else Returns (to_int64 r) {| errno := errno u; mach := m |}.
Proof.
  intros [H1 H2]. unfold syscall.
  by rewrite (proj2 (Z.ltb_lt _ _) H1), (proj2 (Z.ltb_lt _ _) H2).
Qed.

(** C1, amended: a number outside [(0, NR_TASKS)] is fatal; for a number
    inside, a negative result [r] of the handler other than [INT64_MIN]
    sets the error code to [|r|] and makes the wrapper return -1, and a
    result that is not negative is returned as it is. *)
Theorem syscall_wrapper number x1 x2 x3 x4 x5 x6 u :
  (number <= 0 \/ NR_TASKS <= number ->
     syscall number x1 x2 x3 x4 x5 x6 u = Panics "Try to call unknown system call")
  /\ (0 < number < NR_TASKS ->
      forall r0 m, ecall x1 x2 x3 x4 x5 x6 number (mach u) = (r0, m) ->
      let r := to_int64 r0 in
      (r < 0 -> min_signed < r ->
         syscall number x1 x2 x3 x4 x5 x6 u =
           Returns (-1) {| errno := Z.abs r; mach := m |})
      /\ (0 <= r ->
         syscall number x1 x2 x3 x4 x5 x6 u =
           Returns r {| errno := errno u; mach := m |})).
Proof.
  split; [apply syscall_unknown|].
  intros Hn r0 m Hcall r. rewrite (syscall_known _ _ _ _ _ _ _ _ Hn), Hcall.
  pose proof (to_int64_range r0) as Hr. unfold is_int64 in Hr. fold r in Hr |- *.
  split.
  - intros Hneg Hmin. rewrite (proj2 (Z.ltb_lt _ _) Hneg).
    rewrite neg_exact by lia. by rewrite Z.abs_neq by lia.
  - intros Hpos. by rewrite (proj2 (Z.ltb_ge _ _) Hpos).
Qed.

(** C10: for a number inside [(0, NR_TASKS)] whose handler returns a value
    [v] that is not negative, the wrapper returns [v] and leaves [errno] as
    it was. *)
Theorem syscall_success_keeps_errno number x1 x2 x3 x4 x5 x6 u r0 m :
  0 < number < NR_TASKS ->
  ecall x1 x2 x3 x4 x5 x6 number (mach u) = (r0, m) ->
  let v := to_int64 r0 in
  0 <= v ->
  exists u', syscall number x1 x2 x3 x4 x5 x6 u = Returns v u'
    /\ errno u' = errno u /\ mach u' = m.
Proof.
  intros Hn Hcall v Hv. rewrite (syscall_known _ _ _ _ _ _ _ _ Hn), Hcall.
  fold v. rewrite (proj2 (Z.ltb_ge _ _) Hv). by eexists.
Qed.

End WrapperFacts.

(** ** Runs on the sample configuration *)

Lemma sample_current_is l :
  length l = 4%nat -> current_is (sample_kernel l) (sample_task l).
Proof. intros H. split; [reflexivity | exact H]. Qed.

Lemma sample_parents_recorded c l : parents_recorded (sample_kernel_of c l) 1000.
Proof.
  intros p t H Hne. simpl in H.
  apply lookup_insert_Some in H as [[<- _] | [_ H]]; [done|].
  apply lookup_insert_Some in H as [[<- <-] | [_ H]].
  { exists sample_init. split; [reflexivity | simpl; lia]. }
  apply lookup_singleton_Some in H as [<- <-].
  exists (sample_task l). split; [reflexivity | simpl; lia].
Qed.

(** [sys_open_scan] at a table whose first empty slot is slot 1, for the
    path of the sample file. *)
Lemma sys_open_scan_witness :
  sys_open (KC := sample_consts) (sample_tf 4096 0) (sample_kernel [7; NULL; 9; NULL])
  = Ok 1 (set_vfs {[ 8192 := 1%nat ]} (sample_kernel [7; 8192; 9; NULL])).
Proof.
  destruct (sys_open_scan (KC := sample_consts) (sample_tf 4096 0)
              (sample_kernel [7; NULL; 9; NULL]) (sample_task [7; NULL; 9; NULL])
              8192 ∅) as [Hfirst _].
  - split; reflexivity.
  - reflexivity.
  - destruct (Hfirst 1%nat) as (_ & Hbind & _).
    + split; [reflexivity|]. intros [|j] Hj; [simpl; discriminate | lia].
    + rewrite Hbind by discriminate. vm_compute. reflexivity.
Defined.

(** C5 as stated fails: with every slot empty and a path that names no
    file, [open] returns [-EAGAIN]. *)
Lemma sys_open_eagain_with_empty_slots :
  sys_open (KC := sample_consts) (sample_tf 0 0) (sample_kernel [NULL; NULL; NULL; NULL])
  = Ok (- @EAGAIN sample_consts) (sample_kernel [NULL; NULL; NULL; NULL])
  /\ ~ all_occupied (fd (sample_task [NULL; NULL; NULL; NULL])).
Proof.
  split; [vm_compute; reflexivity|].
  intros Hall. by apply (Hall O).
Qed.

(** [sys_open_eagain_iff] at the same call. *)
Lemma sys_open_eagain_iff_witness :
  exists k', sys_open (KC := sample_consts) (sample_tf 0 0)
               (sample_kernel [NULL; NULL; NULL; NULL]) = Ok (-11) k'.
Proof.
  apply (sys_open_eagain_iff (KC := sample_consts) (sample_tf 0 0)
           (sample_kernel [NULL; NULL; NULL; NULL])
           (sample_task [NULL; NULL; NULL; NULL])).
  - split; reflexivity.
  - simpl; lia.
  - right. reflexivity.
Defined.

(** [sys_open_failure_keeps_table] at a failed lookup with slot 1 empty. *)
Lemma sys_open_failure_keeps_table_witness :
  exists cur', mem (sample_kernel [7; NULL; 9; NULL]) !! 2000 = Some cur'
    /\ fd cur' = [7; NULL; 9; NULL].
Proof.
  destruct (sys_open_failure_keeps_table (KC := sample_consts) (sample_tf 0 0)
              (sample_kernel [7; NULL; 9; NULL]) (sample_task [7; NULL; 9; NULL])
              (sample_kernel [7; NULL; 9; NULL])) as (_ & _ & H).
  - split; reflexivity.
  - simpl; lia.
  - vm_compute. reflexivity.
  - exact H.
Defined.

(** [sys_close_fd_4] at a concrete process. *)
Lemma sys_close_fd_4_witness :
  sys_close (KC := sample_consts) (sample_tf 4 0) (sample_kernel [7; NULL; 9; NULL])
  = Fault (OutOfBounds 4).
Proof.
  apply (sys_close_fd_4 (KC := sample_consts) (sample_tf 4 0)
           (sample_kernel [7; NULL; 9; NULL]) (sample_task [7; NULL; 9; NULL])).
  - split; reflexivity.
  - reflexivity.
Defined.

(** [sys_stat_fd_4] at a concrete process. *)
Lemma sys_stat_fd_4_witness :
  sys_stat (KC := sample_consts) (sample_tf 4 512) (sample_kernel [7; NULL; 9; NULL])
  = Fault (OutOfBounds 4).
Proof.
  apply (sys_stat_fd_4 (KC := sample_consts) (sample_tf 4 512)
           (sample_kernel [7; NULL; 9; NULL]) (sample_task [7; NULL; 9; NULL])).
  - split; reflexivity.
  - reflexivity.
Defined.

(** [sys_getppid_spec] at the process of pid 2, whose parent has pid 1. *)
Lemma sys_getppid_spec_witness :
  exists v, sys_getppid (sample_tf 0 0)
              (sample_kernel_of 3000 [NULL; NULL; NULL; NULL])
            = Ok v (sample_kernel_of 3000 [NULL; NULL; NULL; NULL])
    /\ v = 1.
Proof.
  destruct (sys_getppid_spec (sample_tf 0 0)
              (sample_kernel_of 3000 [NULL; NULL; NULL; NULL]) 1000
              sample_grandchild) as (v & Hrun & _ & _ & Hparent).
  - reflexivity.
  - apply sample_parents_recorded.
  - reflexivity.
  - exists v. split; [exact Hrun|].
    destruct Hparent as (parent & Hp & ->); [simpl; lia|].
    vm_compute in Hp. by injection Hp as <-.
Defined.

(** [sys_fork_double_return] at the process of pid 1, with slot 1 of the
    process table free and pids 0, 1 and 2 in use: the child gets pid 3, in
    slot 1, and the registers of the caller's frame but for [a0]. *)
Lemma sys_fork_double_return_witness :
  let k := set_tasks [1000; NULL; 2000; 3000] (sample_kernel [7; NULL; 9; NULL]) in
  exists k',
    sys_fork (KC := sample_consts) sample_fork_tf k = Ok 3 k'
    /\ exists cp child,
         tasks k' = [1000; cp; 2000; 3000] /\ mem k' !! cp = Some child
         /\ pid child = 3 /\ p_pptr child = 2000 /\ resume_value child = 0
         /\ a1 (gpr (context child)) = 11 /\ a7 (gpr (context child)) = 1
         /\ epc (context child) = 65536.
Proof.
  intros k.
  destruct (sys_fork (KC := sample_consts) sample_fork_tf k) as [r k'|e] eqn:Hrun;
    [|vm_compute in Hrun; discriminate].
  assert (Hr : r = 3) by (vm_compute in Hrun; by injection Hrun as <- _).
  subst r. exists k'. split; [reflexivity|].
  destruct (sys_fork_double_return (KC := sample_consts) sample_fork_tf k
              (sample_task [7; NULL; 9; NULL]) 3 k')
    as (_ & _ & (nr & cp & child & Hnr & Hslot & Htasks & _ & _ & Hmem & Hpid
                 & Hpar & _ & Ha0 & Ha1 & _ & _ & _ & _ & _ & Ha7 & Hepc & _) & _).
  - reflexivity.
  - simpl; lia.
  - exact Hrun.
  - lia.
  - assert (nr = 1%nat) as ->.
    { destruct nr as [|[|[|[|nr]]]]; simpl in Hslot; try done; lia. }
    exists cp, child. rewrite Htasks, Hmem.
    split_and!; [reflexivity | apply lookup_insert_eq | done..].
Defined.

(** C1 as stated fails at [INT64_MIN]: the wrapper returns -1 but the
    error code it stores is [INT64_MIN], not the magnitude [2^63], which no
    [int64_t] holds. *)
Lemma syscall_errno_at_int64_min :
  let u := sample_user min_trap tt in
  let r := to_int64 (ecall 0 0 0 0 0 0 1 (mach u)).1 in
  0 < 1 < @NR_TASKS sample_consts /\ r < 0
  /\ exists u', syscall (KC := sample_consts) (TR := min_trap) 1 0 0 0 0 0 0 u
                = Returns (-1) u'
       /\ errno u' = min_signed /\ errno u' <> Z.abs r.
Proof.
  split_and!; [done | done | done |].
  eexists. split_and!; [vm_compute; reflexivity | reflexivity | done].
Qed.

(** [syscall_wrapper] at three calls: number 0, number 3 (result -5) and
    number 12 (result 4). *)
Lemma syscall_wrapper_witness :
  let u := sample_user sample_trap tt in
  syscall (KC := sample_consts) (TR := sample_trap) 0 0 0 0 0 0 0 u
    = Panics "Try to call unknown system call"
  /\ syscall (KC := sample_consts) (TR := sample_trap) 3 0 0 0 0 0 0 u
    = Returns (-1) (@Build_user sample_trap 5 tt)
  /\ syscall (KC := sample_consts) (TR := sample_trap) 12 0 0 0 0 0 0 u
    = Returns 4 (@Build_user sample_trap 0 tt).
Proof.
  intros u. split_and!.
  - apply (syscall_wrapper (KC := sample_consts) (TR := sample_trap)). left. lia.
  - destruct (syscall_wrapper (KC := sample_consts) (TR := sample_trap)
                3 0 0 0 0 0 0 u) as [_ H].
    destruct (H ltac:(simpl; lia) (-5) tt eq_refl) as [Hneg _].
    apply Hneg; vm_compute; reflexivity.
  - destruct (syscall_wrapper (KC := sample_consts) (TR := sample_trap)
                12 0 0 0 0 0 0 u) as [_ H].
    destruct (H ltac:(simpl; lia) 4 tt eq_refl) as [_ Hpos].
    apply Hpos. vm_compute. discriminate.
Defined.

(** [syscall_success_keeps_errno] at number 12, whose result is 4. *)
Lemma syscall_success_keeps_errno_witness :
  exists u', syscall (KC := sample_consts) (TR := sample_trap) 12 0 0 0 0 0 0
               (sample_user sample_trap tt) = Returns 4 u'
    /\ errno u' = 0.
Proof.
  destruct (syscall_success_keeps_errno (KC := sample_consts) (TR := sample_trap)
              12 0 0 0 0 0 0 (sample_user sample_trap tt) 4 tt)
    as (u' & Hrun & Herrno & _).
  - simpl; lia.
  - reflexivity.
  - vm_compute. discriminate.
  - exists u'. split; [exact Hrun | exact Herrno].
Defined.

(** The scenario of the specification: a process opens the sample file into
    descriptor 0, closes descriptor 0, and then asks for the stat data of
    descriptor 0, which fails with [-EINVAL]. *)
Example open_close_stat_scenario :
  exists k1 k2,
    sys_open (KC := sample_consts) (sample_tf 4096 0)
      (sample_kernel [NULL; NULL; NULL; NULL]) = Ok 0 k1
    /\ sys_close (KC := sample_consts) (sample_tf 0 0) k1 = Ok 0 k2
    /\ sys_stat (KC := sample_consts) (sample_tf 0 512) k2
       = Ok (- @EINVAL sample_consts) k2.
Proof.
  do 2 eexists. split_and!; vm_compute; reflexivity.
Qed.

(** ** Further properties of [sys_open], [sys_close] and [sys_stat] *)

Section Descriptors.
Context `{KC : KConsts} `{VFS : Vfs}.

(** The three ways a call of [sys_open] can go. *)
Lemma sys_open_cases tf k cur inode v :
  current_is k cur ->
  vfs_get_inode (arg0 tf) NULL (vfs k) = (inode, v) ->
  (all_occupied (fd cur) /\ sys_open tf k = Ok (- EAGAIN) k)
  \/ (exists i, first_empty (fd cur) i /\ inode = NULL
        /\ sys_open tf k = Ok (- EAGAIN) (set_vfs v k))
  \/ (exists i, first_empty (fd cur) i /\ inode <> NULL
        /\ sys_open tf k =
             Ok (Z.of_nat i)
                (set_vfs (vfs_ref_inode inode v)
                   (set_mem (<[current k := set_fd (<[i := inode]> (fd cur)) cur]>
                               (mem k)) k))).
Proof.
  intros Hk Hlookup.
  destruct (first_empty_or_all_occupied (fd cur)) as [Hall | [i Hfe]].
  - left. split; [done|]. by apply (sys_open_all_occupied tf k cur).
  - right. pose proof (sys_open_at_first_empty tf k cur i Hk Hfe) as Hrun.
    rewrite Hlookup in Hrun. case_bool_decide as Hi.
    + left. by exists i.
    + right. by exists i.
Qed.

(** X1: for a process with its 4 descriptor slots, [sys_open] always
    returns: no access leaves the table and the loop ends within its 4
    iterations.  The result is [-EAGAIN] or a descriptor in [[0, 4)]; the
    table keeps its 4 slots and the process table, the running process, the
    user memory and every member of the PCB other than the table (pid,
    parent, heap bounds, state, saved trap frame) are as before. *)
Theorem sys_open_result_range tf k cur :
  current_is k cur ->
  exists v k' cur',
    sys_open tf k = Ok v k'
    /\ (v = - EAGAIN \/ 0 <= v < 4)
    /\ current_is k' cur'
    /\ tasks k' = tasks k /\ current k' = current k /\ ubuf k' = ubuf k
    /\ pid cur' = pid cur /\ p_pptr cur' = p_pptr cur
    /\ brk cur' = brk cur /\ end_data cur' = end_data cur
    /\ state cur' = state cur /\ context cur' = context cur.
Proof.
  intros Hk.
  destruct (vfs_get_inode (arg0 tf) NULL (vfs k)) as [inode v] eqn:Hlookup.
  destruct (sys_open_cases tf k cur inode v Hk Hlookup)
    as [[_ Hrun] | [(i & _ & _ & Hrun) | (i & Hfe & _ & Hrun)]].
  - exists (- EAGAIN), k, cur. split_and!; auto.
  - exists (- EAGAIN), (set_vfs v k), cur. split_and!; auto.
  - pose proof (first_empty_lt _ _ Hfe) as Hi.
    destruct Hk as [Hcur Hlen]. rewrite Hlen in Hi. unfold NR_FD in Hi.
    eexists _, _, (set_fd (<[i := inode]> (fd cur)) cur).
    split_and!; [exact Hrun | right; lia | | done..].
    split; [simpl; apply lookup_insert_eq | simpl; by rewrite length_insert].
Qed.

(** X2: [sys_open] never rebinds a slot that holds an inode, and touches no
    PCB but the caller's. *)
Theorem sys_open_keeps_bound_slots tf k cur v k' :
  current_is k cur ->
  sys_open tf k = Ok v k' ->
  (forall q, q <> current k -> mem k' !! q = mem k !! q)
  /\ exists cur', mem k' !! current k = Some cur'
       /\ forall j p, fd cur !! j = Some p -> p <> NULL -> fd cur' !! j = Some p.
Proof.
  intros Hk Hrun.
  destruct (vfs_get_inode (arg0 tf) NULL (vfs k)) as [inode w] eqn:Hlookup.
  destruct (sys_open_cases tf k cur inode w Hk Hlookup)
    as [[_ Hrun'] | [(i & _ & _ & Hrun') | (i & Hfe & _ & Hrun')]];
    rewrite Hrun' in Hrun; injection Hrun as <- <-.
  - split; [done|]. exists cur. split; [apply Hk | done].
  - split; [done|]. exists cur. split; [apply Hk | done].
  - split.
    + intros q Hq. simpl. by rewrite lookup_insert_ne.
    + exists (set_fd (<[i := inode]> (fd cur)) cur). split.
      * simpl. apply lookup_insert_eq.
      * intros j p Hj Hp. simpl. rewrite list_lookup_insert_ne; [done|].
        intros <-. destruct Hfe as [Hi _]. congruence.
Qed.

(** X3: closing the descriptor that [sys_open] has just returned succeeds
    and puts the heap of PCBs, hence the descriptor table of the caller,
    back to what it was before the open. *)
Theorem sys_open_close_roundtrip tf tf' k cur v k1 :
  current_is k cur -> 0 < EAGAIN ->
  sys_open tf k = Ok v k1 -> 0 <= v ->
  arg0 tf' = v ->
  exists k2, sys_close tf' k1 = Ok 0 k2 /\ mem k2 = mem k.
Proof.
  intros Hk Hpos Hrun Hv Harg.
  destruct (vfs_get_inode (arg0 tf) NULL (vfs k)) as [inode w] eqn:Hlookup.
  destruct (sys_open_cases tf k cur inode w Hk Hlookup)
    as [[_ Hrun'] | [(i & _ & _ & Hrun') | (i & Hfe & Hi & Hrun')]];
    rewrite Hrun' in Hrun; injection Hrun as <- <-; [lia | lia |].
  pose proof (first_empty_lt _ _ Hfe) as Hlt.
  destruct Hk as [Hcur Hlen]. rewrite Hlen in Hlt. unfold NR_FD in Hlt.
  eexists. split.
  - eapply (sys_close_clears tf' _ (set_fd (<[i := inode]> (fd cur)) cur) inode).
    + simpl. apply lookup_insert_eq.
    + rewrite Harg, Nat2Z.id. simpl. apply list_lookup_insert_eq.
      rewrite Hlen. unfold NR_FD. lia.
    + lia.
  - simpl. rewrite Harg, Nat2Z.id, insert_insert_eq.
    unfold set_fd. simpl. rewrite list_insert_insert_eq.
    rewrite list_insert_id by apply Hfe.
    fold (set_fd (fd cur) cur). rewrite set_fd_id. by apply insert_id.
Qed.

(** X4: [sys_stat] on the descriptor that [sys_open] has just returned
    succeeds and copies to the buffer the stat data of the inode the lookup
    found. *)
Theorem sys_open_then_stat tf tf' k cur v k1 :
  current_is k cur -> 0 < EAGAIN ->
  sys_open tf k = Ok v k1 -> 0 <= v ->
  arg0 tf' = v ->
  let inode := (vfs_get_inode (arg0 tf) NULL (vfs k)).1 in
  sys_stat tf' k1 =
    Ok 0 (set_ubuf (<[arg1 tf' := vfs_get_stat inode (vfs k1)]> (ubuf k1)) k1).
Proof.
  intros Hk Hpos Hrun Hv Harg.
  destruct (vfs_get_inode (arg0 tf) NULL (vfs k)) as [inode w] eqn:Hlookup.
  destruct (sys_open_cases tf k cur inode w Hk Hlookup)
    as [[_ Hrun'] | [(i & _ & _ & Hrun') | (i & Hfe & Hi & Hrun')]];
    rewrite Hrun' in Hrun; injection Hrun as <- <-; [lia | lia |].
  pose proof (first_empty_lt _ _ Hfe) as Hlt.
  destruct Hk as [Hcur Hlen]. rewrite Hlen in Hlt. unfold NR_FD in Hlt.
  cbv zeta. cbn [fst].
  apply (sys_stat_fills tf' _ (set_fd (<[i := inode]> (fd cur)) cur) inode).
  - simpl. apply lookup_insert_eq.
  - rewrite Harg, Nat2Z.id. simpl. apply list_lookup_insert_eq.
    rewrite Hlen. unfold NR_FD. lia.
  - done.
  - lia.
Qed.

(** X5: closing an empty slot of the table returns 0 and leaves every PCB
    as it is, but still hands the null pointer to [vfs_free_inode]. *)
Theorem sys_close_empty_slot tf k cur :
  current_is k cur -> arg0 tf < 4 ->
  fd cur !! Z.to_nat (arg0 tf) = Some NULL ->
  sys_close tf k = Ok 0 (set_vfs (vfs_free_inode NULL (vfs k)) k).
Proof.
  intros [Hcur Hlen] Hlt Hslot.
  rewrite (sys_close_clears tf k cur NULL Hcur Hslot Hlt).
  rewrite list_insert_id by done. rewrite set_fd_id.
  by rewrite (put_same k cur Hcur).
Qed.

(** X6: [sys_close] on a descriptor below 4 returns 0, empties that slot and
    changes nothing else: the other slots, every other member of the PCB
    (pid, parent, heap bounds, state, saved trap frame), the other PCBs, the
    process table, the running process and the user memory are as before. *)
Theorem sys_close_frame tf k cur :
  current_is k cur -> arg0 tf < 4 ->
  exists k' cur',
    sys_close tf k = Ok 0 k'
    /\ current_is k' cur'
    /\ fd cur' !! Z.to_nat (arg0 tf) = Some NULL
    /\ (forall j, j <> Z.to_nat (arg0 tf) -> fd cur' !! j = fd cur !! j)
    /\ (forall q, q <> current k -> mem k' !! q = mem k !! q)
    /\ tasks k' = tasks k /\ current k' = current k /\ ubuf k' = ubuf k
    /\ pid cur' = pid cur /\ p_pptr cur' = p_pptr cur
    /\ brk cur' = brk cur /\ end_data cur' = end_data cur
    /\ state cur' = state cur /\ context cur' = context cur.
Proof.
  intros [Hcur Hlen] Hlt.
  pose proof (arg0_nonneg tf) as Hge.
  assert (Hn : (Z.to_nat (arg0 tf) < length (fd cur))%nat)
    by (rewrite Hlen; unfold NR_FD; lia).
  destruct (lookup_lt_is_Some_2 (fd cur) _ Hn) as [p Hp].
  eexists _, (set_fd (<[Z.to_nat (arg0 tf) := NULL]> (fd cur)) cur).
  split_and!; [exact (sys_close_clears tf k cur p Hcur Hp Hlt) | | | | | done..].
  - split; [simpl; apply lookup_insert_eq | simpl; by rewrite length_insert].
  - simpl. by apply list_lookup_insert_eq.
  - intros j Hj. simpl. by rewrite list_lookup_insert_ne.
  - intros q Hq. simpl. by rewrite lookup_insert_ne.
Qed.

(** X7: [sys_stat] returns 0 or [-EINVAL], and copies only when it returns
    0: a call that returns anything else leaves the whole state, the user
    memory included, exactly as it found it. *)
Theorem sys_stat_failure_no_effect tf k v k' :
  sys_stat tf k = Ok v k' ->
  (v = 0 \/ v = - EINVAL) /\ (v <> 0 -> k' = k).
Proof.
  unfold sys_stat. destruct ((arg0 tf <? 0) || (arg0 tf >? 4)).
  { intros H. injection H as <- <-. split; [by right | done]. }
  unfold mbind at 1, kern_bind at 1.
  destruct (fd_load (arg0 tf) k) as [inode k0|e] eqn:Hload; [|done].
  assert (k0 = k) as ->.
  { unfold fd_load, get_current, deref, get in Hload.
    unfold mbind, kern_bind, mret, kern_ret, raise in Hload.
    destruct (mem k !! current k) as [cur|]; [|done].
    destruct (fd cur !! Z.to_nat (arg0 tf)); [|done]. by injection Hload as _ <-. }
  case_bool_decide as Hnull.
  { intros H. injection H as <- <-. split; [by right | done]. }
  intros H. injection H as <- _. split; [by left | done].
Qed.

End Descriptors.

(** ** Further properties of [sys_brk], [sys_getpid] and [sys_getppid] *)

Section HeapAndIdentity.
Context `{KC : KConsts} `{VFS : Vfs}.

(** X8: [sys_brk] keeps the heap boundary between the end of the data and
    the stack bound: from a PCB whose boundary lies there, every call, with
    any argument, leads to a PCB whose boundary lies there; the end of the
    data, the descriptor table, the pid and the parent are not changed, and
    the value returned is the boundary now stored. *)
Theorem sys_brk_keeps_heap_ok tf k cur :
  mem k !! current k = Some cur -> heap_ok cur ->
  exists k' cur',
    sys_brk tf k = Ok (to_int64 (brk cur')) k'
    /\ mem k' !! current k' = Some cur' /\ heap_ok cur'
    /\ end_data cur' = end_data cur /\ fd cur' = fd cur
    /\ pid cur' = pid cur /\ p_pptr cur' = p_pptr cur
    /\ current k' = current k /\ tasks k' = tasks k.
Proof.
  intros Hcur Hok.
  destruct (decide (end_data cur <= arg0 tf < stack_limit)) as [Hin | Hout].
  - eexists _, (set_brk (arg0 tf) cur).
    split_and!; [exact (sys_brk_accept tf k cur Hcur Hin) | | | done..].
    + apply current_after_put.
    + exact Hin.
  - exists k, cur. split_and!; try done.
    exact (sys_brk_ignore tf k cur Hcur Hout).
Qed.

(** X9: of two calls of [sys_brk] in a row, the second decides when its
    argument is accepted: the result and the state are those of the second
    call alone. *)
Theorem sys_brk_last_accepted_wins tf1 tf2 k cur v1 k1 :
  mem k !! current k = Some cur ->
  sys_brk tf1 k = Ok v1 k1 ->
  end_data cur <= arg0 tf2 < stack_limit ->
  sys_brk tf2 k1 = sys_brk tf2 k.
Proof.
  intros Hcur Hrun Hin2.
  rewrite (sys_brk_accept tf2 k cur Hcur Hin2).
  destruct (decide (end_data cur <= arg0 tf1 < stack_limit)) as [Hin | Hout].
  - rewrite (sys_brk_accept tf1 k cur Hcur Hin) in Hrun. injection Hrun as _ <-.
    rewrite (sys_brk_accept tf2 _ (set_brk (arg0 tf1) cur)
               (current_after_put k _) Hin2).
    f_equal. unfold set_mem, set_brk. simpl. by rewrite insert_insert_eq.
  - rewrite (sys_brk_ignore tf1 k cur Hcur Hout) in Hrun. injection Hrun as _ <-.
    exact (sys_brk_accept tf2 k cur Hcur Hin2).
Qed.

Lemma run_sys_getpid tf k cur :
  mem k !! current k = Some cur -> sys_getpid tf k = Ok (pid cur) k.
Proof. intros Hcur. unfold sys_getpid. by kstep (run_get_current k cur Hcur). Qed.

(** X10: what [sys_getppid] answers to a process other than init is what
    [sys_getpid] answers to the process its parent pointer designates; both
    leave the kernel state as it is. *)
Theorem sys_getppid_is_parent_getpid tf tf' k t0 cur :
  tasks k !! O = Some t0 -> current k <> t0 ->
  mem k !! current k = Some cur ->
  is_Some (mem k !! p_pptr cur) ->
  exists v,
    sys_getppid tf k = Ok v k
    /\ sys_getpid tf' (set_current (p_pptr cur) k) = Ok v (set_current (p_pptr cur) k).
Proof.
  intros H0 Hne Hcur [parent Hpar].
  exists (pid parent). split.
  - by apply (sys_getppid_child tf k t0 cur parent).
  - by apply run_sys_getpid.
Qed.

(** X11: a process whose parent pointer designates no PCB (the null
    pointer of the init process, for one) and that is not [tasks[0]] makes
    [sys_getppid] dereference that pointer: the call has no result. *)
Theorem sys_getppid_dangling_parent tf k t0 cur :
  tasks k !! O = Some t0 -> current k <> t0 ->
  mem k !! current k = Some cur ->
  mem k !! p_pptr cur = None ->
  sys_getppid tf k = Fault (BadPointer (p_pptr cur)).
Proof.
  intros H0 Hne Hcur Hpar. unfold sys_getppid.
  kget. kstep (run_tasks_load k 0 _ H0).
  rewrite bool_decide_eq_false_2 by done.
  kstep (run_get_current k cur Hcur).
  apply run_bind_fault. unfold deref. by rewrite Hpar.
Qed.

End HeapAndIdentity.

(** ** [sys_read] *)

Section ReadFacts.
Context `{KC : KConsts} `{VFS : Vfs} `{VR : !VfsRequest}.

Lemma sys_read_rejects tf k : 4 < arg0 tf -> sys_read tf k = Ok (- EINVAL) k.
Proof. intros H. unfold sys_read. by rewrite (proj2 (fd_guard tf) H). Qed.

Lemma sys_read_empty_slot tf k cur :
  mem k !! current k = Some cur ->
  fd cur !! Z.to_nat (arg0 tf) = Some NULL ->
  sys_read tf k = Ok (- EINVAL) k.
Proof.
  intros Hcur Hslot. unfold sys_read.
  destruct ((arg0 tf <? 0) || (arg0 tf >? 4)); [done|].
  kstep (run_fd_load k cur _ NULL Hcur Hslot).
  by rewrite bool_decide_eq_true_2.
Qed.

(** X12: [sys_read] on a bound descriptor issues one request to the VFS,
    for the inode of the slot, the buffer and length of the call, at offset
    0 and with flag 1, and returns 0, whatever the length and whatever the
    request does: never a byte count.  No PCB changes, so that a second
    identical call issues the same request again, at offset 0. *)
Theorem sys_read_bound tf k cur p :
  mem k !! current k = Some cur ->
  fd cur !! Z.to_nat (arg0 tf) = Some p -> p <> NULL ->
  arg0 tf < 4 ->
  let request := vfs_inode_request p (arg1 tf) (arg2 tf) 0 1 in
  exists k1 k2,
    sys_read tf k = Ok 0 k1
    /\ (vfs k1, ubuf k1) = request (vfs k, ubuf k)
    /\ mem k1 = mem k /\ tasks k1 = tasks k /\ current k1 = current k
    /\ sys_read tf k1 = Ok 0 k2
    /\ (vfs k2, ubuf k2) = request (request (vfs k, ubuf k))
    /\ mem k2 = mem k.
Proof.
  intros Hcur Hslot Hp Hlt request.
  assert (Hrun : forall k0, mem k0 !! current k0 = Some cur ->
            sys_read tf k0 =
              Ok 0 (set_ubuf (request (vfs k0, ubuf k0)).2
                      (set_vfs (request (vfs k0, ubuf k0)).1 k0))).
  { intros k0 Hcur0. unfold sys_read. rewrite fd_guard_false by lia.
    kstep (run_fd_load k0 cur _ p Hcur0 Hslot).
    rewrite bool_decide_eq_false_2 by done.
    unfold mbind, kern_bind, modify, mret, kern_ret. fold request.
    by destruct (request (vfs k0, ubuf k0)). }
  eexists _, _. split_and!.
  - by apply Hrun.
  - simpl. by destruct (request (vfs k, ubuf k)).
  - done.
  - done.
  - done.
  - by apply Hrun.
  - simpl. destruct (request (vfs k, ubuf k)) as [v1 u1]. simpl.
    by destruct (request (v1, u1)).
  - done.
Qed.

(** X13: the guard of [sys_read] lets descriptor 4 through, as the guards
    of [sys_close] and [sys_stat] do; the handler then reads
    [current->fd[4]], outside the 4 slots of the table. *)
Theorem sys_read_fd_4 tf k cur :
  current_is k cur -> arg0 tf = 4 ->
  sys_read tf k = Fault (OutOfBounds 4).
Proof.
  intros [Hcur Hlen] H4. unfold sys_read. rewrite fd_guard_false by lia.
  rewrite H4. apply run_bind_fault.
  exact (run_fd_load_oob k cur 4 Hcur (slot_4_outside cur Hlen)).
Qed.

(** X14: after [sys_close] of a descriptor below 4, [sys_read] on that
    descriptor returns [-EINVAL] and issues no request. *)
Theorem sys_read_after_close tf tf' k cur k' :
  current_is k cur -> arg0 tf < 4 -> arg0 tf' = arg0 tf ->
  sys_close tf k = Ok 0 k' ->
  sys_read tf' k' = Ok (- EINVAL) k'.
Proof.
  intros [Hcur Hlen] Hlt Heq Hclose.
  pose proof (arg0_nonneg tf) as Hge.
  destruct (lookup_lt_is_Some_2 (fd cur) (Z.to_nat (arg0 tf))) as [p Hp].
  { rewrite Hlen. unfold NR_FD. lia. }
  rewrite (sys_close_clears tf k cur p Hcur Hp Hlt) in Hclose.
  injection Hclose as <-.
  eapply sys_read_empty_slot.
  - simpl. apply lookup_insert_eq.
  - simpl. rewrite Heq. apply list_lookup_insert_eq. by apply lookup_lt_Some in Hp.
Qed.

(** X15: a negative descriptor, passed as an [int64_t], is rejected by
    [sys_close], [sys_stat] and [sys_read] with [-EINVAL] and no change of
    state: read as a [uint64_t] it is above 4, although the test [fd < 0]
    of the guard can never hold. *)
Theorem negative_descriptor_rejected tf k :
  min_signed <= a0 (gpr tf) < 0 ->
  (arg0 tf <? 0) = false
  /\ sys_close tf k = Ok (- EINVAL) k
  /\ sys_stat tf k = Ok (- EINVAL) k
  /\ sys_read tf k = Ok (- EINVAL) k.
Proof.
  intros Hneg.
  assert (Harg : arg0 tf = a0 (gpr tf) + 2 ^ 64).
  { unfold arg0, to_uint64, modulus. unfold min_signed in Hneg.
    symmetry. apply Z.mod_unique_pos with (-1); lia. }
  assert (4 < arg0 tf) by (unfold min_signed in Hneg; lia).
  split_and!.
  - apply Z.ltb_ge. lia.
  - by apply sys_close_rejects.
  - by apply sys_stat_rejects.
  - by apply sys_read_rejects.
Qed.

End ReadFacts.

(** ** Further properties of the wrapper, and the system-call table *)

Section WrapperMore.
Context `{KC : KConsts} `{TR : Trap}.

Lemma neg_nonzero r : is_int64 r -> r < 0 -> neg r <> 0.
Proof.
  unfold is_int64, min_signed, max_signed. intros Hr Hneg.
  destruct (decide (r = - 2 ^ 63)) as [-> | Hne]; [done|].
  rewrite neg_exact by (unfold min_signed, max_signed; lia). lia.
Qed.

(** X16: whenever the wrapper returns, its result is at least -1 and is -1
    exactly when the result of the handler is negative; on that path the
    error code it leaves is not 0, and on the other path the error code is
    the one found.  A caller tells failure from success by the result being
    -1. *)
Theorem syscall_result_range number x1 x2 x3 x4 x5 x6 u v u' :
  syscall number x1 x2 x3 x4 x5 x6 u = Returns v u' ->
  let r := to_int64 (ecall x1 x2 x3 x4 x5 x6 number (mach u)).1 in
  0 < number < NR_TASKS
  /\ -1 <= v <= max_signed
  /\ (v = -1 <-> r < 0)
  /\ (v = -1 -> errno u' <> 0)
  /\ (v <> -1 -> v = r /\ errno u' = errno u).
Proof.
  intros Hrun r.
  destruct (decide (0 < number < NR_TASKS)) as [Hn | Hn].
  2:{ rewrite syscall_unknown in Hrun by lia. done. }
  rewrite (syscall_known _ _ _ _ _ _ _ _ Hn) in Hrun. unfold r.
  destruct (ecall x1 x2 x3 x4 x5 x6 number (mach u)) as [r0 m]. simpl.
  pose proof (to_int64_range r0) as Hr.
  destruct (to_int64 r0 <? 0) eqn:Hsign; injection Hrun as <- <-.
  - apply Z.ltb_lt in Hsign. unfold max_signed.
    split_and!; [lia | lia | lia | lia | done | | done].
    intros _. simpl. by apply neg_nonzero.
  - apply Z.ltb_ge in Hsign. unfold is_int64 in Hr.
    split_and!; [lia | lia | lia | lia | lia | lia | done].
Qed.

(** X17: the numbers the wrapper lets through are the positive indices of
    [syscall_table] exactly when [NR_TASKS] is 17, the length of the table:
    with a larger [NR_TASKS] the wrapper issues calls that name no entry,
    with a smaller one it refuses calls of the table. *)
Theorem wrapper_guard_matches_table (u : user) :
  (forall number,
     (exists v u', syscall number 0 0 0 0 0 0 u = Returns v u')
     <-> 0 < number /\ is_Some (syscall_table !! Z.to_nat number))
  <-> NR_TASKS = 17.
Proof.
  assert (Hret : forall number,
            (exists v u', syscall number 0 0 0 0 0 0 u = Returns v u')
            <-> 0 < number < NR_TASKS).
  { intros number. split.
    - intros (v & u' & Hrun).
      destruct (decide (0 < number < NR_TASKS)) as [Hn | Hn]; [done|].
      rewrite syscall_unknown in Hrun by lia. done.
    - intros Hn. rewrite (syscall_known _ _ _ _ _ _ _ _ Hn).
      destruct (ecall 0 0 0 0 0 0 number (mach u)) as [r0 m].
      destruct (to_int64 r0 <? 0); by eexists _, _. }
  assert (Htab : forall number,
            0 < number /\ is_Some (syscall_table !! Z.to_nat number)
            <-> 0 < number < 17).
  { intros number. rewrite lookup_lt_is_Some.
    change (length syscall_table) with 17%nat. lia. }
  split.
  - intros H.
    assert (H16 : 0 < 16 < NR_TASKS) by (apply Hret, H, Htab; lia).
    destruct (decide (17 < NR_TASKS)) as [Hbig|]; [|lia].
    assert (0 < 17 < 17); [|lia]. apply Htab, H, Hret. lia.
  - intros HNR number. rewrite Hret, Htab, HNR. done.
Qed.

End WrapperMore.

(** ** The ethernet header *)

Section EthernetFacts.
Context `{NU : NetUtils}.

Lemma load_u16_Some (b : list Z) off e :
  load_u16 b off = Some e ->
  exists lo hi, b !! off = Some lo /\ b !! S off = Some hi /\ e = lo + 256 * hi.
Proof.
  unfold load_u16. destruct (b !! off) as [lo|]; [|done].
  destruct (b !! S off) as [hi|]; [|done].
  intros [= <-]. by exists lo, hi.
Qed.

Lemma load_store_u16 (b : list Z) off v :
  (S off < length b)%nat -> 0 <= v < 65536 ->
  load_u16 (store_u16 b off v) off = Some v.
Proof.
  intros Hlen Hv. unfold load_u16, store_u16.
  rewrite list_lookup_insert_eq by (rewrite length_insert; lia).
  rewrite list_lookup_insert_ne by lia.
  rewrite list_lookup_insert_eq by lia.
  f_equal. pose proof (Z.div_mod v 256 ltac:(lia)) as Hv'.
  assert (0 <= v / 256 < 256) by (split; [apply Z.div_pos | apply Z.div_lt_upper_bound]; lia).
  rewrite (Z.mod_small (v / 256)) by lia. lia.
Qed.

Lemma byte_pair_low lo hi : 0 <= lo < 256 -> (lo + 256 * hi) mod 256 = lo.
Proof. intros H. symmetry. apply (Z.mod_unique_pos _ _ hi); lia. Qed.

Lemma byte_pair_high lo hi :
  0 <= lo < 256 -> 0 <= hi < 256 -> (lo + 256 * hi) / 256 mod 256 = hi.
Proof.
  intros Hlo Hhi.
  rewrite <- (Z.div_unique_pos (lo + 256 * hi) 256 hi lo) by lia.
  apply Z.mod_small. lia.
Qed.

Lemma to_uint16_range z : 0 <= to_uint16 z < 65536.
Proof. unfold to_uint16. apply Z.mod_pos_bound. lia. Qed.

(** X18: [eth_hdr] needs the 14 bytes of the header: it reaches outside a
    shorter buffer, and works on every buffer of 14 bytes or more. *)
Theorem eth_hdr_needs_header (b : list Z) :
  eth_hdr b = None <-> (length b < 14)%nat.
Proof.
  unfold eth_hdr, load_u16. split.
  - destruct (b !! 12%nat) eqn:H12; [|apply lookup_ge_None in H12; lia].
    destruct (b !! 13%nat) eqn:H13; [done|]. apply lookup_ge_None in H13. lia.
  - intros Hlen. rewrite (lookup_ge_None_2 b 13) by lia.
    by destruct (b !! 12%nat).
Qed.

(** X19: [eth_hdr] rewrites the [ethertype] member and nothing else: the
    length of the frame, the two addresses and the payload are as before,
    bytes remain bytes, and the member now holds the [ntohs] of what it
    held. *)
Theorem eth_hdr_frame (b b' : list Z) :
  eth_hdr b = Some b' ->
  length b' = length b
  /\ eth_dmac b' = eth_dmac b /\ eth_smac b' = eth_smac b
  /\ eth_payload b' = eth_payload b
  /\ (Forall is_byte b -> Forall is_byte b')
  /\ exists e, eth_ethertype b = Some e
       /\ eth_ethertype b' = Some (to_uint16 (ntohs e)).
Proof.
  unfold eth_hdr. destruct (load_u16 b 12) as [e|] eqn:Hload; [|done].
  intros [= <-].
  destruct (load_u16_Some _ _ _ Hload) as (lo & hi & H12 & H13 & ->).
  apply lookup_lt_Some in H13.
  split_and!.
  - unfold store_u16. by rewrite !length_insert.
  - unfold eth_dmac, store_u16. by rewrite !take_insert_ge by lia.
  - unfold eth_smac, store_u16.
    rewrite drop_insert_ge, take_insert_ge by lia.
    rewrite drop_insert_ge, take_insert_ge by lia. done.
  - unfold eth_payload, store_u16. by rewrite !drop_insert_lt by lia.
  - intros Hb. unfold store_u16.
    apply Forall_insert; [apply Forall_insert; [done|] |];
      unfold is_byte; apply Z.mod_pos_bound; lia.
  - eexists. split; [exact Hload|]. unfold eth_ethertype.
    apply load_store_u16; [lia | apply to_uint16_range].
Qed.

(** X20: when [ntohs] undoes itself on 16-bit values, a second [eth_hdr]
    on the same buffer undoes the first: the member is back in network byte
    order.  When moreover [ntohs] changes the value the member holds, as
    the exchange of two different bytes does, the first call changes the
    buffer and the second changes it again: [eth_hdr] is not idempotent. *)
Theorem eth_hdr_twice (b b' : list Z) :
  (forall x, 0 <= x < 65536 -> to_uint16 (ntohs (to_uint16 (ntohs x))) = x) ->
  Forall is_byte b ->
  eth_hdr b = Some b' ->
  eth_hdr b' = Some b
  /\ forall e, eth_ethertype b = Some e -> to_uint16 (ntohs e) <> e ->
       b' <> b /\ eth_hdr b' <> Some b'.
Proof.
  intros Hinv Hbytes Hrun.
  unfold eth_hdr in Hrun. destruct (load_u16 b 12) as [e|] eqn:Hload; [|done].
  injection Hrun as <-.
  destruct (load_u16_Some _ _ _ Hload) as (lo & hi & H12 & H13 & ->).
  pose proof (proj1 (Forall_lookup _ _) Hbytes _ _ H12) as Hlo.
  pose proof (proj1 (Forall_lookup _ _) Hbytes _ _ H13) as Hhi.
  unfold is_byte in Hlo, Hhi.
  pose proof (lookup_lt_Some _ _ _ H13) as Hlen.
  assert (Hback :
    eth_hdr (store_u16 b 12 (to_uint16 (ntohs (lo + 256 * hi)))) = Some b).
  { unfold eth_hdr.
    rewrite load_store_u16 by (lia || apply to_uint16_range).
    rewrite Hinv by lia. f_equal.
    unfold store_u16.
    rewrite (list_insert_insert_ne _ 13 12) by lia.
    rewrite !list_insert_insert_eq.
    rewrite byte_pair_low, byte_pair_high by lia.
    rewrite (list_insert_id _ 13 hi) by done.
    by apply list_insert_id. }
  split; [exact Hback|].
  intros e He Hchange. unfold eth_ethertype in He. rewrite Hload in He.
  injection He as <-.
  assert (Hne : store_u16 b 12 (to_uint16 (ntohs (lo + 256 * hi))) <> b).
  { intros Heq.
    pose proof (load_store_u16 b 12 (to_uint16 (ntohs (lo + 256 * hi)))
                  ltac:(lia) (to_uint16_range _)) as Hl.
    rewrite Heq, Hload in Hl. by injection Hl as Hl. }
  split; [exact Hne|]. rewrite Hback. intros Heq. injection Heq as Heq. done.
Qed.

(** X21: when [ntohs] exchanges the two bytes of its argument, the member
    holds, after [eth_hdr], the big-endian value of bytes 12 and 13 of the
    frame as received: [0x0800] for the bytes [08 00] of an IPv4 frame. *)
Theorem eth_hdr_network_order (b b' : list Z) hi lo :
  (forall x, 0 <= x < 65536 -> ntohs x = bswap16 x) ->
  b !! 12%nat = Some hi -> b !! 13%nat = Some lo ->
  is_byte hi -> is_byte lo ->
  eth_hdr b = Some b' ->
  eth_ethertype b' = Some (256 * hi + lo).
Proof.
  intros Hswap H12 H13 Hhi Hlo Hrun. unfold is_byte in Hhi, Hlo.
  unfold eth_hdr, load_u16 in Hrun. rewrite H12, H13 in Hrun.
  injection Hrun as <-. apply lookup_lt_Some in H13.
  unfold eth_ethertype. rewrite load_store_u16 by (lia || apply to_uint16_range).
  f_equal. rewrite Hswap by lia. unfold bswap16, to_uint16.
  rewrite byte_pair_low, byte_pair_high by lia.
  rewrite Z.mod_small; lia.
Qed.

End EthernetFacts.

(** ** Further runs on the sample configuration *)

Lemma bswap16_range x : 0 <= x < 65536 -> 0 <= bswap16 x < 65536.
Proof.
  intros Hx. unfold bswap16.
  pose proof (Z.mod_pos_bound x 256 ltac:(lia)).
  pose proof (Z.mod_pos_bound (x / 256) 256 ltac:(lia)). lia.
Qed.

Lemma bswap16_involutive x : 0 <= x < 65536 -> bswap16 (bswap16 x) = x.
Proof.
  intros Hx.
  assert (Hhi : 0 <= x / 256 < 256)
    by (split; [apply Z.div_pos | apply Z.div_lt_upper_bound]; lia).
  pose proof (Z.mod_pos_bound x 256 ltac:(lia)) as Hlo.
  pose proof (Z.div_mod x 256 ltac:(lia)) as Hsplit.
  unfold bswap16 at 2. rewrite (Z.mod_small (x / 256)) by lia.
  unfold bswap16.
  replace (x mod 256 * 256 + x / 256) with (x / 256 + 256 * (x mod 256)) by lia.
  rewrite byte_pair_low, byte_pair_high by lia. lia.
Qed.

Lemma swap_net_involutive x :
  0 <= x < 65536 ->
  to_uint16 (@ntohs swap_net (to_uint16 (@ntohs swap_net x))) = x.
Proof.
  intros Hx. simpl. unfold to_uint16.
  rewrite (Z.mod_small (bswap16 x)) by by apply bswap16_range.
  rewrite bswap16_involutive by done. by apply Z.mod_small.
Qed.

Lemma sample_frame_bytes : Forall is_byte sample_frame.
Proof. unfold sample_frame. repeat constructor; unfold is_byte; lia. Qed.

Lemma sample_open_run :
  sys_open (KC := sample_consts) (sample_tf 4096 0) (sample_kernel [7; NULL; 9; NULL])
  = Ok 1 (set_vfs {[ 8192 := 1%nat ]} (sample_kernel [7; 8192; 9; NULL])).
Proof. vm_compute. reflexivity. Qed.

Lemma sys_open_result_range_witness :
  exists v k',
    sys_open (KC := sample_consts) (sample_tf 4096 0)
      (sample_kernel [7; NULL; 9; NULL]) = Ok v k'
    /\ (v = -11 \/ 0 <= v < 4).
Proof.
  destruct (sys_open_result_range (KC := sample_consts) (sample_tf 4096 0)
              (sample_kernel [7; NULL; 9; NULL]) (sample_task [7; NULL; 9; NULL]))
    as (v & k' & _ & Hrun & Hv & _).
  - split; reflexivity.
  - exists v, k'. split; [exact Hrun | exact Hv].
Defined.

Lemma sys_open_keeps_bound_slots_witness :
  exists cur',
    mem (set_vfs {[ 8192 := 1%nat ]} (sample_kernel [7; 8192; 9; NULL])) !! 2000
      = Some cur'
    /\ fd cur' !! O = Some 7 /\ fd cur' !! 2%nat = Some 9.
Proof.
  destruct (sys_open_keeps_bound_slots (KC := sample_consts) (sample_tf 4096 0)
              (sample_kernel [7; NULL; 9; NULL]) (sample_task [7; NULL; 9; NULL])
              1 (set_vfs {[ 8192 := 1%nat ]} (sample_kernel [7; 8192; 9; NULL])))
    as (_ & cur' & Hcur' & Hslots).
  - split; reflexivity.
  - exact sample_open_run.
  - exists cur'. split_and!; [exact Hcur' | |].
    + apply Hslots; [reflexivity | discriminate].
    + apply Hslots; [reflexivity | discriminate].
Defined.

Lemma sys_open_close_roundtrip_witness :
  exists k2,
    sys_close (KC := sample_consts) (sample_tf 1 0)
      (set_vfs {[ 8192 := 1%nat ]} (sample_kernel [7; 8192; 9; NULL])) = Ok 0 k2
    /\ mem k2 = mem (sample_kernel [7; NULL; 9; NULL]).
Proof.
  apply (sys_open_close_roundtrip (KC := sample_consts) (sample_tf 4096 0)
           (sample_tf 1 0) (sample_kernel [7; NULL; 9; NULL])
           (sample_task [7; NULL; 9; NULL]) 1).
  - split; reflexivity.
  - simpl; lia.
  - exact sample_open_run.
  - lia.
  - reflexivity.
Defined.

Lemma sys_open_then_stat_witness :
  let k1 := set_vfs {[ 8192 := 1%nat ]} (sample_kernel [7; 8192; 9; NULL]) in
  sys_stat (KC := sample_consts) (sample_tf 1 512) k1
  = Ok 0 (set_ubuf {[ 512 := 8193 ]} k1).
Proof.
  intros k1.
  pose proof (sys_open_then_stat (KC := sample_consts) (sample_tf 4096 0)
                (sample_tf 1 512) (sample_kernel [7; NULL; 9; NULL])
                (sample_task [7; NULL; 9; NULL]) 1 k1) as H.
  rewrite H.
  - vm_compute. reflexivity.
  - split; reflexivity.
  - simpl; lia.
  - exact sample_open_run.
  - lia.
  - reflexivity.
Defined.

Lemma sys_close_empty_slot_witness :
  sys_close (KC := sample_consts) (sample_tf 1 0) (sample_kernel [7; NULL; 9; NULL])
  = Ok 0 (set_vfs {[ NULL := O ]} (sample_kernel [7; NULL; 9; NULL])).
Proof.
  rewrite (sys_close_empty_slot (KC := sample_consts) (sample_tf 1 0)
             (sample_kernel [7; NULL; 9; NULL]) (sample_task [7; NULL; 9; NULL])).
  - vm_compute. reflexivity.
  - split; reflexivity.
  - vm_compute. reflexivity.
  - reflexivity.
Defined.

Lemma sys_close_frame_witness :
  exists k' cur',
    sys_close (KC := sample_consts) (sample_tf 2 0)
      (sample_kernel [7; NULL; 9; NULL]) = Ok 0 k'
    /\ mem k' !! 2000 = Some cur'
    /\ fd cur' !! 2%nat = Some NULL /\ fd cur' !! O = Some 7.
Proof.
  destruct (sys_close_frame (KC := sample_consts) (sample_tf 2 0)
              (sample_kernel [7; NULL; 9; NULL]) (sample_task [7; NULL; 9; NULL]))
    as (k' & cur' & Hrun & [Hcur' _] & Hslot & Hothers & _ & _ & Hc & _).
  - split; reflexivity.
  - vm_compute. reflexivity.
  - exists k', cur'. split_and!.
    + exact Hrun.
    + rewrite Hc in Hcur'. exact Hcur'.
    + exact Hslot.
    + rewrite (Hothers O); [reflexivity | discriminate].
Defined.

Lemma sys_stat_failure_no_effect_witness :
  let k := sample_kernel [7; NULL; 9; NULL] in
  exists v k',
    sys_stat (KC := sample_consts) (sample_tf 1 512) k = Ok v k'
    /\ v = -22 /\ k' = k.
Proof.
  intros k.
  destruct (sys_stat (KC := sample_consts) (sample_tf 1 512) k) as [v k'|e] eqn:Hrun;
    [|vm_compute in Hrun; discriminate].
  destruct (sys_stat_failure_no_effect (KC := sample_consts) (sample_tf 1 512)
              k v k' Hrun) as [_ Hsame].
  assert (Hv : v = -22) by (vm_compute in Hrun; by injection Hrun as <- _).
  exists v, k'. split_and!; [reflexivity | exact Hv | apply Hsame; lia].
Defined.

Lemma sample_heap_ok l : heap_ok (KC := sample_consts) (sample_task l).
Proof. unfold heap_ok. split; vm_compute; [discriminate | reflexivity]. Qed.

Lemma sys_brk_keeps_heap_ok_witness :
  exists k' cur',
    sys_brk (KC := sample_consts) (sample_tf 12288 0)
      (sample_kernel [7; NULL; 9; NULL]) = Ok (to_int64 (brk cur')) k'
    /\ heap_ok (KC := sample_consts) cur'.
Proof.
  destruct (sys_brk_keeps_heap_ok (KC := sample_consts) (sample_tf 12288 0)
              (sample_kernel [7; NULL; 9; NULL]) (sample_task [7; NULL; 9; NULL]))
    as (k' & cur' & Hrun & _ & Hok & _).
  - reflexivity.
  - apply sample_heap_ok.
  - exists k', cur'. split; [exact Hrun | exact Hok].
Defined.

Lemma sys_brk_last_accepted_wins_witness :
  let k := sample_kernel [7; NULL; 9; NULL] in
  let k1 := set_mem (<[2000 := set_brk 12288 (sample_task [7; NULL; 9; NULL])]> (mem k)) k in
  sys_brk (KC := sample_consts) (sample_tf 16384 0) k1
  = sys_brk (KC := sample_consts) (sample_tf 16384 0) k.
Proof.
  intros k k1.
  apply (sys_brk_last_accepted_wins (KC := sample_consts) (sample_tf 12288 0)
           (sample_tf 16384 0) k (sample_task [7; NULL; 9; NULL]) 12288 k1).
  - reflexivity.
  - vm_compute. reflexivity.
  - split; vm_compute; [discriminate | reflexivity].
Defined.

Lemma sys_getppid_is_parent_getpid_witness :
  exists v,
    sys_getppid (sample_tf 0 0) (sample_kernel_of 3000 [7; NULL; 9; NULL])
      = Ok v (sample_kernel_of 3000 [7; NULL; 9; NULL])
    /\ sys_getpid (sample_tf 0 0) (sample_kernel_of 2000 [7; NULL; 9; NULL])
      = Ok v (sample_kernel_of 2000 [7; NULL; 9; NULL]).
Proof.
  apply (sys_getppid_is_parent_getpid (sample_tf 0 0) (sample_tf 0 0)
           (sample_kernel_of 3000 [7; NULL; 9; NULL]) 1000 sample_grandchild).
  - reflexivity.
  - simpl; lia.
  - reflexivity.
  - eexists. reflexivity.
Defined.

Lemma sys_getppid_dangling_parent_witness :
  sys_getppid (sample_tf 0 0)
    (set_tasks [2000; 1000; 3000; NULL] (sample_kernel_of 1000 [7; NULL; 9; NULL]))
  = Fault (BadPointer NULL).
Proof.
  apply (sys_getppid_dangling_parent (sample_tf 0 0)
           (set_tasks [2000; 1000; 3000; NULL]
              (sample_kernel_of 1000 [7; NULL; 9; NULL])) 2000 sample_init).
  - reflexivity.
  - simpl; lia.
  - reflexivity.
  - reflexivity.
Defined.

Lemma sys_read_bound_witness :
  exists k1,
    sys_read (KC := sample_consts) (VR := sample_request) (sample_tf 0 512)
      (sample_kernel [7; NULL; 9; NULL]) = Ok 0 k1
    /\ mem k1 = mem (sample_kernel [7; NULL; 9; NULL]).
Proof.
  destruct (sys_read_bound (KC := sample_consts) (VR := sample_request)
              (sample_tf 0 512) (sample_kernel [7; NULL; 9; NULL])
              (sample_task [7; NULL; 9; NULL]) 7)
    as (k1 & _ & Hrun & _ & Hm & _).
  - reflexivity.
  - reflexivity.
  - discriminate.
  - vm_compute. reflexivity.
  - exists k1. split; [exact Hrun | exact Hm].
Defined.

Lemma sys_read_fd_4_witness :
  sys_read (KC := sample_consts) (VR := sample_request) (sample_tf 4 512)
    (sample_kernel [7; NULL; 9; NULL]) = Fault (OutOfBounds 4).
Proof.
  apply (sys_read_fd_4 (KC := sample_consts) (VR := sample_request)
           (sample_tf 4 512) (sample_kernel [7; NULL; 9; NULL])
           (sample_task [7; NULL; 9; NULL])).
  - split; reflexivity.
  - reflexivity.
Defined.

Lemma sys_read_after_close_witness :
  let k' := set_vfs {[ 7 := O ]} (sample_kernel [NULL; NULL; 9; NULL]) in
  sys_read (KC := sample_consts) (VR := sample_request) (sample_tf 0 512) k'
  = Ok (-22) k'.
Proof.
  intros k'.
  apply (sys_read_after_close (KC := sample_consts) (VR := sample_request)
           (sample_tf 0 0) (sample_tf 0 512) (sample_kernel [7; NULL; 9; NULL])
           (sample_task [7; NULL; 9; NULL]) k').
  - split; reflexivity.
  - vm_compute. reflexivity.
  - reflexivity.
  - vm_compute. reflexivity.
Defined.

Lemma negative_descriptor_rejected_witness :
  let k := sample_kernel [7; NULL; 9; NULL] in
  sys_close (KC := sample_consts) (sample_tf (-1) 0) k = Ok (-22) k
  /\ sys_stat (KC := sample_consts) (sample_tf (-1) 0) k = Ok (-22) k
  /\ sys_read (KC := sample_consts) (VR := sample_request) (sample_tf (-1) 0) k
     = Ok (-22) k.
Proof.
  intros k.
  destruct (negative_descriptor_rejected (KC := sample_consts)
              (VR := sample_request) (sample_tf (-1) 0) k) as (_ & H1 & H2 & H3).
  - split; vm_compute; [discriminate | reflexivity].
  - split_and!; [exact H1 | exact H2 | exact H3].
Defined.

Lemma syscall_result_range_witness :
  -1 <= -1 <= max_signed
  /\ errno (@Build_user sample_trap 5 tt) <> 0.
Proof.
  destruct (syscall_result_range (KC := sample_consts) (TR := sample_trap)
              3 0 0 0 0 0 0 (sample_user sample_trap tt) (-1)
              (@Build_user sample_trap 5 tt))
    as (_ & Hrange & _ & Herrno & _).
  - vm_compute. reflexivity.
  - split; [exact Hrange | exact (Herrno eq_refl)].
Defined.

Lemma eth_hdr_frame_witness :
  exists b',
    eth_hdr (NU := swap_net) sample_frame = Some b'
    /\ eth_dmac b' = [255; 255; 255; 255; 255; 255]
    /\ eth_payload b' = [69; 0]
    /\ eth_ethertype b' = Some 2048.
Proof.
  destruct (eth_hdr (NU := swap_net) sample_frame) as [b'|] eqn:Hrun;
    [|vm_compute in Hrun; discriminate].
  destruct (eth_hdr_frame (NU := swap_net) sample_frame b' Hrun)
    as (_ & Hd & _ & Hp & _ & e & He & He').
  exists b'. split_and!; [reflexivity | exact Hd | exact Hp |].
  vm_compute in He. injection He as <-. exact He'.
Defined.

Lemma eth_hdr_twice_witness :
  exists b',
    eth_hdr (NU := swap_net) sample_frame = Some b'
    /\ eth_hdr (NU := swap_net) b' = Some sample_frame
    /\ b' <> sample_frame
    /\ eth_hdr (NU := swap_net) b' <> Some b'.
Proof.
  destruct (eth_hdr (NU := swap_net) sample_frame) as [b'|] eqn:Hrun;
    [|vm_compute in Hrun; discriminate].
  destruct (eth_hdr_twice (NU := swap_net) sample_frame b'
              swap_net_involutive sample_frame_bytes Hrun) as [Hback Hchange].
  destruct (Hchange 8) as [Hne Hnot].
  - reflexivity.
  - vm_compute. discriminate.
  - exists b'. split_and!; [reflexivity | exact Hback | exact Hne | exact Hnot].
Defined.

Lemma eth_hdr_network_order_witness :
  exists b',
    eth_hdr (NU := swap_net) sample_frame = Some b'
    /\ eth_ethertype b' = Some 2048.
Proof.
  eexists. split; [vm_compute; reflexivity|].
  apply (eth_hdr_network_order (NU := swap_net) sample_frame _ 8 0).
  - reflexivity.
  - reflexivity.
  - reflexivity.
  - unfold is_byte; lia.
  - unfold is_byte; lia.
  - vm_compute. reflexivity.
Defined.

Lemma wrapper_guard_matches_table_witness :
  ~ (forall number,
       (exists v u', syscall (KC := sample_consts) (TR := sample_trap)
                       number 0 0 0 0 0 0 (sample_user sample_trap tt) = Returns v u')
       <-> 0 < number /\ is_Some (syscall_table !! Z.to_nat number)).
Proof.
  intros H.
  apply (wrapper_guard_matches_table (KC := sample_consts) (TR := sample_trap)) in H.
  discriminate H.
Defined.

Lemma eth_hdr_needs_header_witness :
  eth_hdr (NU := swap_net) [255; 255; 255; 255; 255; 255; 2; 0; 0; 0; 0; 1; 8] = None.
Proof.
  apply (eth_hdr_needs_header (NU := swap_net)). simpl. lia.
Defined.
